(** * AgenticBI: the query-generation and execution pipeline

    A shallow embedding of [backend/models_config.py], [backend/bq_client.py],
    [backend/agent.py], the chart resolution of [backend/report_generator.py]
    and the helpers [build_chart], [compute_kpis] and [run_query] of [app.py],
    followed by the properties of the specification that were checked
    against them.

    Conventions.
    - A Python [str] is a [string] holding its UTF-8 bytes.
    - A Python [dict] with fixed keys that the code only reads is a record or a
      [gmap]; a dict that comes out of [json.loads] is an association list in
      insertion order ([PDict]).
    - A call that may raise returns [exc A]; the exceptions are the instances
      of [Exception] (what the [except Exception] clauses of the code catch).
    - The libraries the code calls (Vertex AI, BigQuery, [json]) are fields of
      a record of the environment, so every theorem that quantifies over
      the environment holds whatever those libraries answer. *)

From Stdlib Require Import QArith Ascii.
From stdpp Require Import gmap strings list pretty.
Close Scope Q_scope.
Set Warnings "-register-all".

(** ** Python values, strings and exceptions *)

Module Py.

(** The classes of exception the code distinguishes: [except ImportError]
    in [execute_sql], and the two errors that the duck-typed accesses of
    [run_query] can raise.  Everything else is [OtherError]. *)
Inductive exn_class : Set :=
| ImportError
| AttributeError
| TypeError
| OtherError.

(** An exception object; [exn_str] is what [str(e)] returns. *)
Record py_exn : Set := Exn { exn_cls : exn_class; exn_str : string }.

Inductive exc (A : Type) : Type :=
| Ok (a : A)
| Raise (e : py_exn).
Arguments Ok {A} a.
Arguments Raise {A} e.

Definition bind {A B : Type} (m : exc A) (k : A -> exc B) : exc B :=
  match m with
  | Ok a => k a
  | Raise e => Raise e
  end.

(** What [json.loads] returns, and what the plan dictionaries hold. *)
Inductive pyval : Type :=
| PNone
| PBool (b : bool)
| PInt (z : Z)
| PFloat (q : Q)
| PStr (s : string)
| PList (l : list pyval)
| PDict (d : list (string * pyval)).

#[global] Instance pyval_inhabited : Inhabited pyval := populate PNone.

(** [d.get(k)] on the items of a dict. *)
Fixpoint items_get (d : list (string * pyval)) (k : string) : option pyval :=
  match d with
  | [] => None
  | (k', v) :: d' => if String.eqb k' k then Some v else items_get d' k
  end.

(** [d.get(k, dflt)]; any value that is not a dict has no attribute [get]. *)
Definition py_get (v : pyval) (k : string) (dflt : pyval) : exc pyval :=
  match v with
  | PDict d => Ok (default dflt (items_get d k))
  | _ => Raise (Exn AttributeError "object has no attribute 'get'")
  end.

(** [d[k] = v]: an existing key keeps its place. *)
Fixpoint items_set (d : list (string * pyval)) (k : string) (v : pyval)
  : list (string * pyval) :=
  match d with
  | [] => [(k, v)]
  | (k', v') :: d' =>
      if String.eqb k' k then (k', v) :: d' else (k', v') :: items_set d' k v
  end.

Definition keys (d : list (string * pyval)) : list string := d.*1.

(** *** Characters *)

Definition LF : string := String (ascii_of_nat 10) EmptyString.
Definition DQ : string := String (ascii_of_nat 34) EmptyString.

(** [str.isspace] and the class [\s] on the ASCII range: tab, line feed,
    vertical tab, form feed, carriage return, the four separators
    0x1c-0x1f and the space. *)
Definition isspace (c : ascii) : bool :=
  let n := nat_of_ascii c in
  (((9 <=? n) && (n <=? 13)) || ((28 <=? n) && (n <=? 32)))%nat.

Definition is_upper (c : ascii) : bool :=
  let n := nat_of_ascii c in ((65 <=? n) && (n <=? 90))%nat.
Definition is_lower (c : ascii) : bool :=
  let n := nat_of_ascii c in ((97 <=? n) && (n <=? 122))%nat.
Definition to_upper (c : ascii) : ascii :=
  if is_lower c then ascii_of_nat (nat_of_ascii c - 32) else c.
Definition to_lower (c : ascii) : ascii :=
  if is_upper c then ascii_of_nat (nat_of_ascii c + 32) else c.

(** *** [str.replace(old, new)] for a non-empty [old]

    Python scans from the left and replaces the occurrences it meets,
    never looking again at what it has already consumed.  [skip] counts
    the bytes of the occurrence that is being dropped. *)
Fixpoint replace_from (skip : nat) (old new s : string) : string :=
  match s with
  | EmptyString => EmptyString
  | String c s' =>
      match skip with
      | S k => replace_from k old new s'
      | O =>
          if String.prefix old s
          then new +:+ replace_from (String.length old - 1) old new s'
          else String c (replace_from 0 old new s')
      end
  end.

(** A byte [10xxxxxx] continues a UTF-8 character. *)
Definition is_continuation (c : ascii) : bool :=
  let n := nat_of_ascii c in ((128 <=? n) && (n <? 192))%nat.

(** The characters of a string: each lead byte with its continuations. *)
Fixpoint chars_from (cur : string) (s : string) : list string :=
  match s with
  | EmptyString => [cur]
  | String c s' =>
      if is_continuation c
      then chars_from (cur +:+ String c EmptyString) s'
      else cur :: chars_from (String c EmptyString) s'
  end.

Definition chars (s : string) : list string :=
  match s with
  | EmptyString => []
  | String c s' => chars_from (String c EmptyString) s'
  end.

(** With an empty [old], Python puts [new] before every character and at
    the end. *)
Definition replace (old new s : string) : string :=
  match old with
  | EmptyString => foldr (fun ch acc => new +:+ ch +:+ acc) new (chars s)
  | _ => replace_from 0 old new s
  end.

(** [old in s] *)
Fixpoint contains (old s : string) : bool :=
  String.prefix old s ||
  match s with
  | EmptyString => false
  | String _ s' => contains old s'
  end.

(** [s.lstrip()], [s.rstrip()], [s.strip()] *)
Fixpoint lstrip (s : string) : string :=
  match s with
  | EmptyString => EmptyString
  | String c s' => if isspace c then lstrip s' else s
  end.

Fixpoint rstrip (s : string) : string :=
  match s with
  | EmptyString => EmptyString
  | String c s' =>
      match rstrip s' with
      | EmptyString => if isspace c then EmptyString else String c EmptyString
      | r => String c r
      end
  end.

Definition strip (s : string) : string := rstrip (lstrip s).

(** [s.removeprefix(p)] and [s.removesuffix(p)], used to read the two
    regular expressions of [_call_vertex_ai]. *)
Fixpoint drop_prefix (p s : string) : option string :=
  match p, s with
  | EmptyString, _ => Some s
  | String a p', String b s' => if Ascii.eqb a b then drop_prefix p' s' else None
  | String _ _, EmptyString => None
  end.

Fixpoint drop_suffix (p s : string) : option string :=
  if String.eqb p s then Some EmptyString
  else match s with
       | EmptyString => None
       | String c s' => String c <$> drop_suffix p s'
       end.

(** A string of ASCII characters only. *)
Fixpoint is_ascii (s : string) : bool :=
  match s with
  | EmptyString => true
  | String c s' => (nat_of_ascii c <? 128)%nat && is_ascii s'
  end.

(** [str.title()] of an ASCII string: a letter that follows a letter is
    lowered, any other letter is raised.  What [str.title()] does to other
    strings is left to [PyLib.str_title]. *)
Fixpoint title_from (prev_cased : bool) (s : string) : string :=
  match s with
  | EmptyString => EmptyString
  | String c s' =>
      let cased := is_upper c || is_lower c in
      String (if prev_cased then to_lower c else to_upper c) (title_from cased s')
  end.

Definition title (s : string) : string := title_from false s.

(** [sep.join(l)] *)
Fixpoint join (sep : string) (l : list string) : string :=
  match l with
  | [] => EmptyString
  | [x] => x
  | x :: l' => x +:+ sep +:+ join sep l'
  end.

End Py.

(** ** backend/models_config.py *)

Module ModelsConfig.

Record Model : Set := {
  model_id : string;
  model_label : string;
  model_description : string;
  model_icon : string;
}.

Definition AVAILABLE_MODELS : list Model := [
  {| model_id := "gemini-2.0-flash-001";
     model_label := "Gemini 2.0 Flash ⚡";
     model_description := "Fastest model — ideal for demos and quick Q&A";
     model_icon := "⚡" |};
  {| model_id := "gemini-1.5-pro-002";
     model_label := "Gemini 1.5 Pro 🧠";
     model_description := "Most capable — best for complex multi-step reasoning";
     model_icon := "🧠" |};
  {| model_id := "gemini-1.5-flash-002";
     model_label := "Gemini 1.5 Flash ⚖️";
     model_description := "Balanced speed and quality";
     model_icon := "⚖️" |};
  {| model_id := "gemini-1.0-pro-002";
     model_label := "Gemini 1.0 Pro 🔧";
     model_description := "Stable production model";
     model_icon := "🔧" |}
].

Definition DEFAULT_MODEL_ID : string := "gemini-2.0-flash-001".

#[global] Instance Model_inhabited : Inhabited Model :=
  populate {| model_id := EmptyString; model_label := EmptyString;
              model_description := EmptyString; model_icon := EmptyString |}.

(** The first model whose [id] is [model_id], else [AVAILABLE_MODELS[0]]. *)
Definition get_model_by_id (mid : string) : Model :=
  default (AVAILABLE_MODELS !!! 0%nat)
          (List.find (fun m => String.eqb (model_id m) mid) AVAILABLE_MODELS).

Record Source : Set := {
  src_id : string;
  src_label : string;
  src_icon : string;
  src_description : string;
  src_color : string;
  src_local : bool;
}.

Definition DATA_SOURCES : list Source := [
  {| src_id := "salesforce"; src_label := "Salesforce"; src_icon := "☁️";
     src_description := "CRM — Leads, Opportunities, Accounts, Cases";
     src_color := "#00A1E0"; src_local := false |};
  {| src_id := "netsuite"; src_label := "NetSuite"; src_icon := "📊";
     src_description := "ERP — Finance, GL, Accounts Payable/Receivable";
     src_color := "#1B3A5C"; src_local := false |};
  {| src_id := "coupa"; src_label := "Coupa"; src_icon := "🛒";
     src_description := "Procurement — Purchase Orders, Invoices, Suppliers";
     src_color := "#E74C3C"; src_local := false |};
  {| src_id := "workday"; src_label := "Workday"; src_icon := "👥";
     src_description := "HCM — Employees, Payroll, Time Off, Headcount";
     src_color := "#F5A623"; src_local := false |};
  {| src_id := "jira"; src_label := "JIRA"; src_icon := "🎯";
     src_description := "Project Management — Issues, Sprints, Backlogs";
     src_color := "#0052CC"; src_local := false |};
  {| src_id := "inhouse"; src_label := "In-House Systems"; src_icon := "🏢";
     src_description := "Custom — Product Metrics, IoT, Internal KPIs";
     src_color := "#8B5CF6"; src_local := false |};
  {| src_id := "local_salesforce"; src_label := "Local · Salesforce"; src_icon := "💾";
     src_description := "Demo CRM data — no GCP needed";
     src_color := "#6b7280"; src_local := true |};
  {| src_id := "local_netsuite"; src_label := "Local · NetSuite"; src_icon := "💾";
     src_description := "Demo ERP data — no GCP needed";
     src_color := "#6b7280"; src_local := true |};
  {| src_id := "local_coupa"; src_label := "Local · Coupa"; src_icon := "💾";
     src_description := "Demo Procurement data — no GCP needed";
     src_color := "#6b7280"; src_local := true |};
  {| src_id := "local_workday"; src_label := "Local · Workday"; src_icon := "💾";
     src_description := "Demo HCM data — no GCP needed";
     src_color := "#6b7280"; src_local := true |};
  {| src_id := "local_jira"; src_label := "Local · JIRA"; src_icon := "💾";
     src_description := "Demo Project data — no GCP needed";
     src_color := "#6b7280"; src_local := true |};
  {| src_id := "local_inhouse"; src_label := "Local · In-House"; src_icon := "💾";
     src_description := "Demo Internal KPI data — no GCP needed";
     src_color := "#6b7280"; src_local := true |}
].

Definition SOURCE_IDS : list string := src_id <$> DATA_SOURCES.

(** [source.get("local", False)]: every entry of the catalogue has the key. *)
Definition is_local_source (s : Source) : bool := src_local s.

(** [source_id.replace('local_', '')] *)
Definition get_bq_source_id (source_id : string) : string :=
  Py.replace "local_" EmptyString source_id.

Definition MODEL_IDS : list string := model_id <$> AVAILABLE_MODELS.
Definition MODEL_LABELS : list string := model_label <$> AVAILABLE_MODELS.

(** The [id] of the first model whose [label] is [label], else
    [DEFAULT_MODEL_ID]. *)
Definition get_model_id_by_label (label : string) : string :=
  default DEFAULT_MODEL_ID
          (model_id <$> List.find (fun m => String.eqb (model_label m) label)
                          AVAILABLE_MODELS).

(** [f'{s["icon"]} {s["label"]}'] *)
Definition full_label (s : Source) : string :=
  src_icon s +:+ " " +:+ src_label s.

Definition SOURCE_LABELS : list string := full_label <$> DATA_SOURCES.

#[global] Instance Source_inhabited : Inhabited Source :=
  populate {| src_id := EmptyString; src_label := EmptyString;
              src_icon := EmptyString; src_description := EmptyString;
              src_color := EmptyString; src_local := false |}.

(** The first source whose full label or whose [label] is [label], else
    [DATA_SOURCES[0]]. *)
Definition get_source_by_label (label : string) : Source :=
  default (DATA_SOURCES !!! 0%nat)
          (List.find (fun s => String.eqb (full_label s) label
                               || String.eqb (src_label s) label)
             DATA_SOURCES).

End ModelsConfig.

(** ** The pandas tables the pipeline handles *)

Module Pandas.

(** A column and its dtype.  [int64] cells are integers, [float64] cells
    are given by their exact values, with [None] for NaN. *)
Inductive Column : Type :=
| ColInt (xs : list Z)
| ColFloat (xs : list (option Q))
| ColObject (xs : list string)
| ColBool (xs : list bool)
| ColDatetime (xs : list Z).

Definition col_len (c : Column) : nat :=
  match c with
  | ColInt xs => length xs
  | ColFloat xs => length xs
  | ColObject xs => length xs
  | ColBool xs => length xs
  | ColDatetime xs => length xs
  end.

(** [df_len] is [len(df.index)]; the columns are kept in order. *)
Record DataFrame : Type := {
  df_len : nat;
  df_columns : list (string * Column);
}.

(** [pd.DataFrame()] *)
Definition DataFrame_new : DataFrame := {| df_len := 0; df_columns := [] |}.

(** [pd.DataFrame({name: [...], ...})] with lists of one length. *)
Definition from_dict (cols : list (string * Column)) : DataFrame :=
  {| df_len := match cols with
               | [] => 0
               | (_, c) :: _ => col_len c
               end;
     df_columns := cols |}.

(** [df.empty]: some axis has length 0. *)
Definition empty (df : DataFrame) : bool :=
  (df_len df =? 0)%nat || (length (df_columns df) =? 0)%nat.

(** [df.columns.tolist()] *)
Definition columns (df : DataFrame) : list string := (df_columns df).*1.

Definition is_number (c : Column) : bool :=
  match c with
  | ColInt _ | ColFloat _ => true
  | _ => false
  end.

(** [df.select_dtypes("number")] keeps the [int64] and [float64] columns. *)
Definition select_dtypes_number (df : DataFrame) : DataFrame :=
  {| df_len := df_len df;
     df_columns := List.filter (fun '(_, c) => is_number c) (df_columns df) |}.

(** A 64-bit signed integer: numpy adds [int64] cells modulo [2^64]. *)
Definition int64_wrap (z : Z) : Z := ((z + 2 ^ 63) mod 2 ^ 64 - 2 ^ 63)%Z.

(** [series.sum()] of an [int64] column. *)
Definition int64_sum (xs : list Z) : Z := int64_wrap (foldr Z.add 0%Z xs).

(** The sum of [float64] cells in exact arithmetic, NaN cells skipped.
    It is what [series.sum()] returns when no addition rounds; what
    [series.sum()] returns in general is left to [PyLib.series_sum]. *)
Definition exact_sum (xs : list (option Q)) : Q :=
  foldr (fun x acc => Qplus (default 0%Q x) acc) 0%Q xs.

End Pandas.

(** ** Number formatting of the f-strings *)

Module Fmt.

(** The thousands separator: [rev_digits] are the digits from the right,
    [k] the number of digits since the last comma. *)
Fixpoint commas_rev (k : nat) (rev_digits : list ascii) : list ascii :=
  match rev_digits with
  | [] => []
  | c :: r =>
      match k with
      | 3 => ","%char :: c :: commas_rev 1 r
      | _ => c :: commas_rev (S k) r
      end
  end.

Definition group (digits : string) : string :=
  String.string_of_list_ascii
    (rev (commas_rev 0 (rev (String.list_ascii_of_string digits)))).

(** [f"{n:,}"] for a length. *)
Definition comma (n : nat) : string := group (pretty n).

(** Round half to even, on the absolute value. *)
Definition round_half_even (num den : Z) : Z :=
  let fl := (num / den)%Z in
  let r := (num mod den)%Z in
  match (2 * r ?= den)%Z with
  | Lt => fl
  | Gt => (fl + 1)%Z
  | Eq => if Z.even fl then fl else (fl + 1)%Z
  end.

(** The value of [float(z)]: the double nearest to [z], ties to even.
    Below [2^53] every integer is a double. *)
Definition nearest_double (z : Z) : Z :=
  let a := Z.abs z in
  if (a <? 2 ^ 53)%Z then z
  else
    let e := (Z.log2 a - 52)%Z in
    let q := (a / 2 ^ e)%Z in
    let r := (a mod 2 ^ e)%Z in
    let half := (2 ^ (e - 1))%Z in
    let up := (half <? r)%Z || ((r =? half)%Z && Z.odd q) in
    (Z.sgn z * ((if up then q + 1 else q) * 2 ^ e))%Z.

(** [f"{z:,.0f}"] for an integer [z]: the format converts [z] to a double
    first. *)
Definition int_comma_0f (z : Z) : string :=
  let v := nearest_double z in
  (if (v <? 0)%Z then "-" else EmptyString) +:+ group (pretty (Z.abs v)).

(** [f"{x:,.0f}"] for a number given exactly. *)
Definition comma_0f (q : Q) : string :=
  let n := Qnum q in
  let d := Z.pos (Qden q) in
  (if (n <? 0)%Z then "-" else EmptyString) +:+
  group (pretty (round_half_even (Z.abs n) d)).

End Fmt.

(** ** What the embedding takes from Python and pandas

    [compute_kpis] calls [Series.sum], the format [,.0f] and [str.title].
    Their results on [float64] columns and on labels that are not ASCII
    depend on binary floating point and on the Unicode tables, which are
    not embedded: they are fields of [Semantics].  On [int64] columns and
    on ASCII labels the fields are tied to the definitions above. *)

Module PyLib.

Record Semantics : Type := {
  (** what [Series.sum()] returns *)
  scalar : Type;
  (** [series.sum()] *)
  series_sum : Pandas.Column -> scalar;
  (** [f"{x:,.0f}"] *)
  format_comma_0f : scalar -> string;
  (** [s.title()] *)
  str_title : string -> string;
  title_ascii :
    forall s : string, Py.is_ascii s = true -> str_title s = Py.title s;
  int64_comma_0f :
    forall xs : list Z,
      format_comma_0f (series_sum (Pandas.ColInt xs))
      = Fmt.int_comma_0f (Pandas.int64_sum xs);
}.

End PyLib.

(** ** The environment of a turn

    The environment variables read at import time and the answers of the
    libraries the pipeline calls.  A field of type [exc _] is a call that
    may raise. *)

Module Env.

Import Py.

Record World : Type := {
  (** [os.getenv('GCP_PROJECT_ID', '')] *)
  GCP_PROJECT_ID : string;
  (** [os.getenv('GCP_LOCATION', 'us-central1')] *)
  GCP_LOCATION : string;
  (** [os.getenv('BQ_DATASET', 'erp_poc')] *)
  BQ_DATASET : string;
  (** [from google.cloud import bigquery] *)
  import_bigquery : exc unit;
  (** [bigquery.Client(project=...)] *)
  bigquery_Client : string -> exc unit;
  (** [client.query(sql).result().to_dataframe()] *)
  bigquery_query : pyval -> exc Pandas.DataFrame;
  (** [import vertexai] and [from vertexai.generative_models import ...] *)
  import_vertexai : exc unit;
  (** [vertexai.init(project=..., location=...)] *)
  vertexai_init : string -> string -> exc unit;
  (** [GenerativeModel(model_name, system_instruction)
       .generate_content(prompt, GenerationConfig(temperature=0.1,
       max_output_tokens=2048)).text], given the model name, the system
      instruction and the prompt *)
  generate_content : string -> string -> string -> exc string;
  (** [json.loads] *)
  json_loads : string -> exc pyval;
}.

End Env.

#[global] Instance exc_ret : MRet Py.exc := fun A a => Py.Ok a.
#[global] Instance exc_bind : MBind Py.exc := fun A B k m => Py.bind m k.

(** ** backend/bq_client.py *)

Module BqClient.

Import Py Env.

Definition salesforce_mock : Pandas.DataFrame := Pandas.from_dict [
  ("stage", Pandas.ColObject ["Prospecting"; "Qualification"; "Proposal"; "Negotiation";
      "Closed Won"; "Closed Lost"]);
  ("deal_count", Pandas.ColInt [45; 32; 28; 15; 22; 8]%Z);
  ("total_value", Pandas.ColInt [890000; 1250000; 2100000; 1800000; 3200000; 450000]%Z);
  ("avg_days_in_stage", Pandas.ColInt [12; 18; 25; 30; 5; 10]%Z)
].

Definition netsuite_mock : Pandas.DataFrame := Pandas.from_dict [
  ("department", Pandas.ColObject ["Marketing"; "Operations"; "HR"; "IT"; "Finance";
      "R&D"]);
  ("total_amount", Pandas.ColInt [150000; 320000; 95000; 210000; 130000; 280000]%Z);
  ("transaction_count", Pandas.ColInt [45; 120; 30; 80; 55; 95]%Z);
  ("budget_remaining", Pandas.ColInt [50000; 30000; 25000; 90000; 70000; 120000]%Z)
].

Definition coupa_mock : Pandas.DataFrame := Pandas.from_dict [
  ("supplier", Pandas.ColObject ["Acme Corp"; "Global Parts"; "TechVend"; "Office Pro";
      "CloudServ"; "DataFlow"]);
  ("po_count", Pandas.ColInt [28; 45; 15; 62; 20; 12]%Z);
  ("total_spend", Pandas.ColInt [245000; 520000; 180000; 95000; 310000; 150000]%Z);
  ("avg_delivery_days", Pandas.ColInt [5; 8; 3; 2; 1; 4]%Z)
].

Definition workday_mock : Pandas.DataFrame := Pandas.from_dict [
  ("department", Pandas.ColObject ["Engineering"; "Sales"; "Marketing"; "Support"; "HR";
      "Finance"]);
  ("headcount", Pandas.ColInt [120; 85; 45; 60; 15; 25]%Z);
  ("avg_tenure_years", Pandas.ColFloat [Some (32 # 10)%Q; Some (28 # 10)%Q;
      Some (41 # 10)%Q; Some (25 # 10)%Q; Some (50 # 10)%Q; Some (45 # 10)%Q]);
  ("attrition_rate", Pandas.ColFloat [Some (85 # 10)%Q; Some (120 # 10)%Q; Some (65 # 10)%Q;
      Some (150 # 10)%Q; Some (30 # 10)%Q; Some (50 # 10)%Q])
].

Definition jira_mock : Pandas.DataFrame := Pandas.from_dict [
  ("project", Pandas.ColObject ["Platform"; "Mobile App"; "Data Pipeline"; "DevOps";
      "Frontend"; "Security"]);
  ("open_issues", Pandas.ColInt [45; 32; 18; 12; 55; 8]%Z);
  ("completed_sprints", Pandas.ColInt [12; 10; 8; 15; 11; 6]%Z);
  ("avg_velocity", Pandas.ColInt [28; 22; 35; 40; 25; 18]%Z)
].

Definition inhouse_mock : Pandas.DataFrame := Pandas.from_dict [
  ("metric_name", Pandas.ColObject ["API Latency"; "Uptime %"; "DAU"; "Error Rate";
      "Throughput"; "NPS Score"]);
  ("current_value", Pandas.ColFloat [Some (125 # 1)%Q; Some (9995 # 100)%Q;
      Some (45000 # 1)%Q; Some (3 # 10)%Q; Some (12000 # 1)%Q; Some (72 # 1)%Q]);
  ("target_value", Pandas.ColFloat [Some (100 # 1)%Q; Some (9999 # 100)%Q;
      Some (50000 # 1)%Q; Some (1 # 10)%Q; Some (15000 # 1)%Q; Some (80 # 1)%Q]);
  ("trend", Pandas.ColObject ["↓ Improving"; "→ Stable"; "↑ Growing"; "↓ Improving";
      "↑ Growing"; "↑ Growing"])
].


Definition MOCK_DATA : gmap string Pandas.DataFrame :=
  <["salesforce" := salesforce_mock]> (
  <["netsuite" := netsuite_mock]> (
  <["coupa" := coupa_mock]> (
  <["workday" := workday_mock]> (
  <["jira" := jira_mock]> (
  <["inhouse" := inhouse_mock]> ∅))))).

#[global] Instance DataFrame_inhabited : Inhabited Pandas.DataFrame :=
  populate Pandas.DataFrame_new.

(** [MOCK_DATA.get(base_source_id, MOCK_DATA['salesforce'])] *)
Definition get_mock_df (base_source_id : string) : Pandas.DataFrame :=
  default (MOCK_DATA !!! "salesforce") (MOCK_DATA !! base_source_id).

Definition salesforce_schema (p d : string) : string := Py.join Py.LF [
  EmptyString;
  "BigQuery Tables (source: Salesforce CRM → BigQuery via connector)";
  EmptyString;
  "Table: `" +:+ p +:+ "." +:+ d +:+ ".sf_opportunities`";
  "  - opportunity_id STRING, name STRING, stage STRING";
  "  - amount FLOAT64, close_date DATE, probability FLOAT64";
  "  - account_id STRING, account_name STRING, owner STRING, region STRING";
  EmptyString;
  "Table: `" +:+ p +:+ "." +:+ d +:+ ".sf_leads`";
  "  - lead_id STRING, name STRING, company STRING, status STRING";
  "  - source STRING, created_date DATE, converted_date DATE";
  EmptyString;
  "Table: `" +:+ p +:+ "." +:+ d +:+ ".sf_cases`";
  "  - case_id STRING, subject STRING, status STRING, priority STRING";
  "  - account_id STRING, created_date DATE, closed_date DATE, resolution_time_hours FLOAT64";
  EmptyString
].

Definition netsuite_schema (p d : string) : string := Py.join Py.LF [
  EmptyString;
  "BigQuery Tables (source: NetSuite ERP → BigQuery via connector)";
  EmptyString;
  "Table: `" +:+ p +:+ "." +:+ d +:+ ".ns_gl_transactions`";
  "  - transaction_id STRING, transaction_date DATE, period STRING";
  "  - account_code STRING, account_name STRING, department STRING";
  "  - amount FLOAT64, currency STRING, memo STRING";
  EmptyString;
  "Table: `" +:+ p +:+ "." +:+ d +:+ ".ns_accounts_payable`";
  "  - invoice_id STRING, vendor STRING, invoice_date DATE, due_date DATE";
  "  - amount FLOAT64, status STRING, payment_date DATE";
  EmptyString;
  "Table: `" +:+ p +:+ "." +:+ d +:+ ".ns_accounts_receivable`";
  "  - invoice_id STRING, customer STRING, invoice_date DATE, due_date DATE";
  "  - amount FLOAT64, status STRING, days_outstanding INT64";
  EmptyString
].

Definition coupa_schema (p d : string) : string := Py.join Py.LF [
  EmptyString;
  "BigQuery Tables (source: Coupa Procurement → BigQuery via connector)";
  EmptyString;
  "Table: `" +:+ p +:+ "." +:+ d +:+ ".coupa_purchase_orders`";
  "  - po_id STRING, po_date DATE, supplier STRING, supplier_id STRING";
  "  - category STRING, total_amount FLOAT64, status STRING";
  "  - requester STRING, department STRING, delivery_date DATE";
  EmptyString;
  "Table: `" +:+ p +:+ "." +:+ d +:+ ".coupa_invoices`";
  "  - invoice_id STRING, po_id STRING, supplier STRING";
  "  - invoice_date DATE, amount FLOAT64, status STRING, payment_terms STRING";
  EmptyString
].

Definition workday_schema (p d : string) : string := Py.join Py.LF [
  EmptyString;
  "BigQuery Tables (source: Workday HCM → BigQuery via connector)";
  EmptyString;
  "Table: `" +:+ p +:+ "." +:+ d +:+ ".wd_employees`";
  "  - employee_id STRING, name STRING, department STRING, title STRING";
  "  - hire_date DATE, location STRING, manager STRING";
  "  - salary FLOAT64, employment_type STRING, status STRING";
  EmptyString;
  "Table: `" +:+ p +:+ "." +:+ d +:+ ".wd_time_off`";
  "  - request_id STRING, employee_id STRING, type STRING";
  "  - start_date DATE, end_date DATE, days FLOAT64, status STRING";
  EmptyString;
  "Table: `" +:+ p +:+ "." +:+ d +:+ ".wd_payroll`";
  "  - payroll_id STRING, employee_id STRING, period DATE";
  "  - gross_pay FLOAT64, deductions FLOAT64, net_pay FLOAT64, department STRING";
  EmptyString
].

Definition jira_schema (p d : string) : string := Py.join Py.LF [
  EmptyString;
  "BigQuery Tables (source: JIRA → BigQuery via connector)";
  EmptyString;
  "Table: `" +:+ p +:+ "." +:+ d +:+ ".jira_issues`";
  "  - issue_key STRING, summary STRING, issue_type STRING, status STRING";
  "  - priority STRING, project STRING, assignee STRING, reporter STRING";
  "  - created DATE, resolved DATE, story_points FLOAT64, sprint STRING";
  EmptyString;
  "Table: `" +:+ p +:+ "." +:+ d +:+ ".jira_sprints`";
  "  - sprint_id STRING, name STRING, project STRING";
  "  - start_date DATE, end_date DATE";
  "  - committed_points FLOAT64, completed_points FLOAT64, velocity FLOAT64";
  EmptyString
].

Definition inhouse_schema (p d : string) : string := Py.join Py.LF [
  EmptyString;
  "BigQuery Tables (source: In-House Systems → BigQuery ETL)";
  EmptyString;
  "Table: `" +:+ p +:+ "." +:+ d +:+ ".app_product_metrics`";
  "  - date DATE, metric_name STRING, metric_value FLOAT64";
  "  - product STRING, environment STRING";
  EmptyString;
  "Table: `" +:+ p +:+ "." +:+ d +:+ ".app_api_logs`";
  "  - timestamp TIMESTAMP, endpoint STRING, method STRING";
  "  - response_code INT64, latency_ms FLOAT64, user_id STRING";
  EmptyString;
  "Table: `" +:+ p +:+ "." +:+ d +:+ ".app_kpi_dashboard`";
  "  - date DATE, kpi_name STRING, current_value FLOAT64";
  "  - target_value FLOAT64, department STRING, status STRING";
  EmptyString
].


(** [schemas.get(base_source_id, schemas['salesforce'])], with
    [p = GCP_PROJECT_ID or 'YOUR_PROJECT'] and [d = BQ_DATASET]. *)
Definition get_schema_description (W : World) (base_source_id : string) : string :=
  let p := if String.eqb (GCP_PROJECT_ID W) EmptyString
           then "YOUR_PROJECT" else GCP_PROJECT_ID W in
  let d := BQ_DATASET W in
  let schemas : gmap string string :=
    <["salesforce" := salesforce_schema p d]> (
    <["netsuite" := netsuite_schema p d]> (
    <["coupa" := coupa_schema p d]> (
    <["workday" := workday_schema p d]> (
    <["jira" := jira_schema p d]> (
    <["inhouse" := inhouse_schema p d]> ∅))))) in
  default (schemas !!! "salesforce") (schemas !! base_source_id).

Definition NOT_INSTALLED : string :=
  "google-cloud-bigquery not installed. Run: pip install google-cloud-bigquery".

(** The body of the [try] of [execute_sql]. *)
Definition live_query (W : World) (sql : pyval) : exc Pandas.DataFrame :=
  _ ← import_bigquery W;
  _ ← bigquery_Client W (GCP_PROJECT_ID W);
  bigquery_query W sql.

(** [execute_sql(sql, source_id, question, is_local)].  The error half of
    the pair is [None] on success.  [sql] is whatever the caller read from
    the plan. *)
Definition execute_sql (W : World) (sql : pyval) (source_id question : string)
    (is_local : bool) : Pandas.DataFrame * option string :=
  let base_id := Py.replace "local_" EmptyString source_id in
  if is_local then
    let df := get_mock_df base_id in
    (df, None)
  else
    match live_query W sql with
    | Ok df => (df, None)
    | Raise e =>
        match exn_cls e with
        | ImportError => (Pandas.DataFrame_new, Some NOT_INSTALLED)
        | _ => (Pandas.DataFrame_new, Some (exn_str e))
        end
    end.

End BqClient.

(** ** backend/agent.py *)

Module Agent.

Import Py Env.

Definition salesforce_response : Py.pyval := Py.PDict [
  ("sql", Py.PStr
     ("SELECT stage, COUNT(*) AS deal_count, SUM(amount) AS total_value" +:+ Py.LF
         +:+ "FROM `erp_poc.sf_opportunities`" +:+ Py.LF
         +:+ "GROUP BY stage ORDER BY total_value DESC"));
  ("explanation", Py.PStr
     "I analysed the Salesforce opportunity pipeline. **Closed Won** leads at $3.2M across 22 deals, while **Proposal** stage has $2.1M indicating a strong pipeline. The **Closed Lost** rate is relatively low, suggesting effective qualification.");
  ("chart_type", Py.PStr
     "bar");
  ("x_col", Py.PStr
     "stage");
  ("y_col", Py.PStr
     "total_value");
  ("followups", Py.PList [
     Py.PStr "What is the average deal size by region?";
     Py.PStr "Show win rate trend over last 6 months";
     Py.PStr "Which sales rep has the highest close rate?"])
].

Definition netsuite_response : Py.pyval := Py.PDict [
  ("sql", Py.PStr
     ("SELECT department, SUM(amount) AS total_amount, COUNT(*) AS transaction_count"
         +:+ Py.LF +:+ "FROM `erp_poc.ns_gl_transactions`" +:+ Py.LF
         +:+ "GROUP BY department ORDER BY total_amount DESC"));
  ("explanation", Py.PStr
     "NetSuite GL analysis shows **Operations** has the highest spend at $320K with 120 transactions. **R&D** is second at $280K. All departments have budget remaining, with **R&D** having the most runway ($120K).");
  ("chart_type", Py.PStr
     "bar");
  ("x_col", Py.PStr
     "department");
  ("y_col", Py.PStr
     "total_amount");
  ("followups", Py.PList [
     Py.PStr "Show accounts payable aging report";
     Py.PStr "Which vendors have overdue invoices?";
     Py.PStr "Monthly revenue vs expense trend"])
].

Definition coupa_response : Py.pyval := Py.PDict [
  ("sql", Py.PStr
     ("SELECT supplier, po_count, total_spend" +:+ Py.LF
         +:+ "FROM `erp_poc.coupa_purchase_orders`" +:+ Py.LF
         +:+ "GROUP BY supplier ORDER BY total_spend DESC"));
  ("explanation", Py.PStr
     "Coupa procurement analysis: **Global Parts** is the top supplier at $520K across 45 POs. **CloudServ** follows at $310K. Average delivery ranges from 1-8 days, with **CloudServ** (cloud services) being fastest at 1 day.");
  ("chart_type", Py.PStr
     "bar");
  ("x_col", Py.PStr
     "supplier");
  ("y_col", Py.PStr
     "total_spend");
  ("followups", Py.PList [
     Py.PStr "Which suppliers have the fastest delivery times?";
     Py.PStr "Show procurement spend by category";
     Py.PStr "List POs pending approval over $50K"])
].

Definition workday_response : Py.pyval := Py.PDict [
  ("sql", Py.PStr
     ("SELECT department, headcount, attrition_rate, avg_tenure_years" +:+ Py.LF
         +:+ "FROM `erp_poc.wd_employees`" +:+ Py.LF +:+ "GROUP BY department"));
  ("explanation", Py.PStr
     "Workday headcount analysis: **Engineering** is the largest team (120 people). **Support** has the highest attrition at 15%, while **HR** has the lowest at 3%. Average tenure ranges from 2.5 to 5.0 years.");
  ("chart_type", Py.PStr
     "bar");
  ("x_col", Py.PStr
     "department");
  ("y_col", Py.PStr
     "headcount");
  ("followups", Py.PList [
     Py.PStr "Which departments need to hire most urgently?";
     Py.PStr "Show payroll cost breakdown by department";
     Py.PStr "What is the time-off utilization rate?"])
].

Definition jira_response : Py.pyval := Py.PDict [
  ("sql", Py.PStr
     ("SELECT project, open_issues, completed_sprints, avg_velocity" +:+ Py.LF
         +:+ "FROM `erp_poc.jira_sprints`" +:+ Py.LF +:+ "GROUP BY project"));
  ("explanation", Py.PStr
     "JIRA project overview: **Frontend** has the most open issues (55) but strong velocity. **DevOps** leads in sprint completion (15 sprints) with the highest velocity (40 pts). **Security** has the fewest open issues — good sign.");
  ("chart_type", Py.PStr
     "bar");
  ("x_col", Py.PStr
     "project");
  ("y_col", Py.PStr
     "open_issues");
  ("followups", Py.PList [
     Py.PStr "Which projects are behind schedule?";
     Py.PStr "Show sprint velocity trend for Platform team";
     Py.PStr "List critical/blocker issues across all projects"])
].

Definition inhouse_response : Py.pyval := Py.PDict [
  ("sql", Py.PStr
     ("SELECT metric_name, current_value, target_value" +:+ Py.LF
         +:+ "FROM `erp_poc.app_kpi_dashboard`" +:+ Py.LF +:+ "ORDER BY metric_name"));
  ("explanation", Py.PStr
     "Internal KPI dashboard: **Uptime** is at 99.95% (target: 99.99%). **DAU** is 45K and trending up toward the 50K goal. **Error Rate** has improved to 0.3% from the 0.1% target. **NPS Score** is 72, showing good user satisfaction.");
  ("chart_type", Py.PStr
     "bar");
  ("x_col", Py.PStr
     "metric_name");
  ("y_col", Py.PStr
     "current_value");
  ("followups", Py.PList [
     Py.PStr "Show API latency trend over last 30 days";
     Py.PStr "Which endpoints have the highest error rate?";
     Py.PStr "Compare current metrics vs last quarter"])
].


Definition LOCAL_RESPONSES : gmap string pyval :=
  <["salesforce" := salesforce_response]> (
  <["netsuite" := netsuite_response]> (
  <["coupa" := coupa_response]> (
  <["workday" := workday_response]> (
  <["jira" := jira_response]> (
  <["inhouse" := inhouse_response]> ∅))))).

Definition SYSTEM_PROMPT_TEMPLATE (source_name schema : string) : string :=
  Py.join Py.LF [
    "You are an expert BI analyst and SQL engineer working with enterprise data.";
    "The data comes from " +:+ source_name +:+ " and is stored in BigQuery.";
    EmptyString;
    "Schema:";
    schema;
    EmptyString;
    "Your task:";
    "1. Understand the user's business question";
    "2. Generate a valid BigQuery SQL query";
    "3. Choose best chart type: " +:+ Py.DQ +:+ "bar" +:+ Py.DQ +:+ ", " +:+ Py.DQ
        +:+ "line" +:+ Py.DQ +:+ ", or " +:+ Py.DQ +:+ "pie" +:+ Py.DQ;
    "4. Pick x and y columns for the chart";
    "5. Write a clear 2-3 sentence business explanation";
    "6. Suggest 3 relevant follow-up questions";
    EmptyString;
    "Respond ONLY in this JSON format (no markdown, no extra text):";
    "{";
    "  " +:+ Py.DQ +:+ "sql" +:+ Py.DQ +:+ ": " +:+ Py.DQ +:+ "<SQL>" +:+ Py.DQ +:+ ",";
    "  " +:+ Py.DQ +:+ "explanation" +:+ Py.DQ +:+ ": " +:+ Py.DQ +:+ "<explanation>"
        +:+ Py.DQ +:+ ",";
    "  " +:+ Py.DQ +:+ "chart_type" +:+ Py.DQ +:+ ": " +:+ Py.DQ +:+ "<bar|line|pie>"
        +:+ Py.DQ +:+ ",";
    "  " +:+ Py.DQ +:+ "x_col" +:+ Py.DQ +:+ ": " +:+ Py.DQ +:+ "<column>" +:+ Py.DQ
        +:+ ",";
    "  " +:+ Py.DQ +:+ "y_col" +:+ Py.DQ +:+ ": " +:+ Py.DQ +:+ "<column>" +:+ Py.DQ
        +:+ ",";
    "  " +:+ Py.DQ +:+ "followups" +:+ Py.DQ +:+ ": [" +:+ Py.DQ +:+ "<q1>" +:+ Py.DQ
        +:+ ", " +:+ Py.DQ +:+ "<q2>" +:+ Py.DQ +:+ ", " +:+ Py.DQ +:+ "<q3>" +:+ Py.DQ
        +:+ "]";
    "}";
    EmptyString
  ].

Definition SOURCE_NAMES : gmap string string :=
  <["salesforce" := "Salesforce CRM"]> (
  <["netsuite" := "NetSuite ERP"]> (
  <["coupa" := "Coupa Procurement"]> (
  <["workday" := "Workday HCM"]> (
  <["jira" := "JIRA Project Management"]> (
  <["inhouse" := "In-House Systems"]> ∅))))).

(** The first [re.sub], pattern [^```(?:json)?\s*]: an opening fence, the
    word [json] when it follows, and the white space after them. *)
Definition strip_fence_open (raw : string) : string :=
  match drop_prefix "```" raw with
  | Some r => lstrip (default r (drop_prefix "json" r))
  | None => raw
  end.

(** The second [re.sub], pattern [\s*```$]: a closing fence at the very
    end and the white space before it. *)
Definition strip_fence_close (raw : string) : string :=
  match drop_suffix "```" raw with
  | Some r => rstrip r
  | None => raw
  end.

(** The body of the [try] of [_call_vertex_ai]. *)
Definition vertex_plan (W : World) (question model_id base_source_id : string)
  : exc pyval :=
  _ ← import_vertexai W;
  _ ← vertexai_init W (GCP_PROJECT_ID W) (GCP_LOCATION W);
  let schema := BqClient.get_schema_description W base_source_id in
  let source_name := default base_source_id (SOURCE_NAMES !! base_source_id) in
  let system_prompt := SYSTEM_PROMPT_TEMPLATE source_name schema in
  text ← generate_content W model_id system_prompt
           ("Business question: " +:+ question);
  let raw := strip text in
  let raw := strip_fence_open raw in
  let raw := strip_fence_close raw in
  json_loads W raw.

(** The plan of the [except Exception as e] clause. *)
Definition error_plan (e : py_exn) : pyval :=
  PDict [
    ("sql", PStr "-- Error generating SQL");
    ("explanation", PStr ("⚠️ Vertex AI error: " +:+ exn_str e));
    ("chart_type", PStr "bar"); ("x_col", PStr EmptyString);
    ("y_col", PStr EmptyString);
    ("followups", PList []); ("error", PStr (exn_str e))
  ].

Definition _call_vertex_ai (W : World) (question model_id base_source_id : string)
  : pyval :=
  match vertex_plan W question model_id base_source_id with
  | Ok plan => plan
  | Raise e => error_plan e
  end.

(** [run_agent(question, model_id, source_id, is_local)].  The copy that
    the local branch returns is shallow; nothing in the program writes
    to a plan, so the copy is the catalogue entry. *)
Definition run_agent (W : World) (question model_id source_id : string)
    (is_local : bool) : pyval :=
  let base_id := Py.replace "local_" EmptyString source_id in
  if is_local then
    default (LOCAL_RESPONSES !!! "salesforce") (LOCAL_RESPONSES !! base_id)
  else
    _call_vertex_ai W question model_id base_id.

End Agent.

(** ** The chart call shared by app.py and backend/report_generator.py *)

Module Plot.

Inductive Kind : Set := Pie | Line | Bar.

(** The plotly express call that a chart builder ends with: [px.pie],
    [px.line] or [px.bar] on the table with the two resolved axes. *)
Record Call : Type := {
  kind : Kind;
  x : string;
  y : string;
  data : Pandas.DataFrame;
}.

End Plot.

(** ** backend/report_generator.py *)

Module ReportGenerator.

Import Py.

(** [_build_chart_html(df, chart_type, x_col, y_col)].  [None] stands for
    the empty string of the first [return]; [Some call] for the HTML of the
    figure that [call] builds.  The three hints are whatever the caller
    read from the plan: a hint that is not a [str] is never [in cols]. *)
Definition _build_chart_html (df : option Pandas.DataFrame)
    (chart_type x_col y_col : pyval) : option Plot.Call :=
  match df with
  | None => None
  | Some df =>
      if Pandas.empty df then None
      else
        let cols := Pandas.columns df in
        let first_col := default EmptyString (head cols) in
        let x_col :=
          match x_col with
          | PStr s => if bool_decide (s ∈ cols) then s else first_col
          | _ => first_col
          end in
        let nc := Pandas.columns (Pandas.select_dtypes_number df) in
        let fallback := default (default EmptyString (last cols)) (head nc) in
        let y_col :=
          match y_col with
          | PStr s =>
              if negb (bool_decide (s ∈ cols)) || String.eqb s x_col
              then fallback else s
          | _ => fallback
          end in
        let kind :=
          match chart_type with
          | PStr "pie" => Plot.Pie
          | PStr "line" => Plot.Line
          | _ => Plot.Bar
          end in
        Some {| Plot.kind := kind; Plot.x := x_col; Plot.y := y_col;
                Plot.data := df |}
  end.

End ReportGenerator.

(** ** app.py *)

Module App.

Import Py Env.

(** [build_chart(df, chart_type, x_col, y_col)]: [None] when there is no
    table or the table is empty, else the figure of the plotly call. *)
Definition build_chart (df : option Pandas.DataFrame)
    (chart_type x_col y_col : pyval) : option Plot.Call :=
  match df with
  | None => None
  | Some df =>
      if Pandas.empty df then None
      else
        let cols := Pandas.columns df in
        let first_col := default EmptyString (head cols) in
        let x_col :=
          match x_col with
          | PStr s => if bool_decide (s ∈ cols) then s else first_col
          | _ => first_col
          end in
        let nc := Pandas.columns (Pandas.select_dtypes_number df) in
        let fallback := default (default EmptyString (last cols)) (head nc) in
        let y_col :=
          match y_col with
          | PStr s =>
              if negb (bool_decide (s ∈ cols)) || String.eqb s x_col
              then fallback else s
          | _ => fallback
          end in
        let kind :=
          match chart_type with
          | PStr "pie" => Plot.Pie
          | PStr "line" => Plot.Line
          | _ => Plot.Bar
          end in
        Some {| Plot.kind := kind; Plot.x := x_col; Plot.y := y_col;
                Plot.data := df |}
  end.

Record Kpi : Set := { label : string; value : string }.

(** [f"{df[col].sum():,.0f}"].  A label that several columns carry selects
    a table, whose sum is a series, and a series rejects the format. *)
Definition kpi_value (B : PyLib.Semantics) (df : Pandas.DataFrame) (col : string)
  : exc string :=
  match List.filter (fun '(n, _) => String.eqb n col) (Pandas.df_columns df) with
  | [(_, c)] => Ok (PyLib.format_comma_0f B (PyLib.series_sum B c))
  | _ => Raise (Exn TypeError "unsupported format string passed to Series.__format__")
  end.

(** The loop of [compute_kpis] over the labels that are left. *)
Fixpoint kpi_loop (B : PyLib.Semantics) (df : Pandas.DataFrame)
    (cols : list string) (kpis : list Kpi) : exc (list Kpi) :=
  match cols with
  | [] => Ok kpis
  | col :: cols' =>
      v ← kpi_value B df col;
      kpi_loop B df cols'
        (kpis ++ [{| label := PyLib.str_title B (Py.replace "_" " " col);
                     value := v |}])
  end.

(** [compute_kpis(df)] *)
Definition compute_kpis (B : PyLib.Semantics) (df : Pandas.DataFrame)
  : exc (list Kpi) :=
  let kpis := [{| label := "Records"; value := Fmt.comma (Pandas.df_len df) |}] in
  kpis ← kpi_loop B df
           (take 2 (Pandas.columns (Pandas.select_dtypes_number df))) kpis;
  Ok (take 3 kpis).

(** An entry of [st.session_state.messages]; the user entries have no
    [model] key. *)
Record Message : Type := {
  role : string;
  content : pyval;
  model : option string;
}.

(** [st.session_state] *)
Record SessionState : Type := {
  messages : list Message;
  last_df : option Pandas.DataFrame;
  last_result : option pyval;
  selected_followup : option string;
  pending_followup : option string;
  email_status : option pyval;
}.

Definition initial_state : SessionState :=
  {| messages := []; last_df := None; last_result := None;
     selected_followup := None; pending_followup := None;
     email_status := None |}.

Definition query_error (err : string) : string :=
  LF +:+ LF +:+ "⚠️ Query error: " +:+ err.

(** [content += suffix] on the content of the last message.  A [str]
    grows; a [list] is extended in place with the characters of the
    suffix; nothing else can be added to a [str]. *)
Definition iadd_str (v : pyval) (suffix : string) : exc pyval :=
  match v with
  | PStr s => Ok (PStr (s +:+ suffix))
  | PList l => Ok (PList (l ++ (PStr <$> chars suffix)))
  | _ => Raise (Exn TypeError "unsupported operand type(s) for +=")
  end.

(** The plan after [content += suffix]: a list under [explanation] is the
    very object that the message holds, so the plan sees it grow. *)
Definition plan_after_iadd (result new_content : pyval) : pyval :=
  match result, new_content with
  | PDict d, PList _ =>
      match items_get d "explanation" with
      | Some (PList _) => PDict (items_set d "explanation" new_content)
      | _ => result
      end
  | _, _ => result
  end.

(** [run_query(question, model_id, source)]: the session state it leaves
    and the exception that escapes it, if any. *)
Definition run_query (W : World) (st : SessionState)
    (question model_id : string) (source : ModelsConfig.Source)
  : SessionState * option py_exn :=
  let local := ModelsConfig.is_local_source source in
  let src_id := ModelsConfig.src_id source in
  let result := Agent.run_agent W question model_id src_id local in
  match py_get result "sql" (PStr EmptyString) with
  | Raise e => (st, Some e)
  | Ok sql =>
      let '(df, err) := BqClient.execute_sql W sql src_id question local in
      let user := {| role := "user"; content := PStr question; model := None |} in
      match py_get result "explanation" (PStr EmptyString) with
      | Raise e =>
          ({| messages := messages st ++ [user];
              last_df := last_df st; last_result := last_result st;
              selected_followup := selected_followup st;
              pending_followup := pending_followup st;
              email_status := email_status st |}, Some e)
      | Ok explanation =>
          let ai c :=
            {| role := "ai"; content := c;
               model := Some (if local then "Local Demo"
                              else ModelsConfig.model_label
                                     (ModelsConfig.get_model_by_id model_id)) |} in
          let st1 c r :=
            {| messages := messages st ++ [user; ai c];
               last_df := match err with None => Some df | Some _ => None end;
               last_result := Some r;
               selected_followup := selected_followup st;
               pending_followup := pending_followup st;
               email_status := email_status st |} in
          match err with
          | Some (String a err' as e) =>
              match iadd_str explanation (query_error e) with
              | Ok c => (st1 c (plan_after_iadd result c), None)
              | Raise ex => (st1 explanation result, Some ex)
              end
          | _ => (st1 explanation result, None)
          end
      end
  end.

(** The question that the report and the e-mail carry: the content of the
    last user entry of the log, found by the scan over
    [reversed(st.session_state.messages)], or the empty string. *)
Definition last_q (log : list Message) : pyval :=
  default (PStr EmptyString)
          (content <$> List.find (fun m => String.eqb (role m) "user") (rev log)).

(** The button [Clear Conversation]. *)
Definition clear_conversation (st : SessionState) : SessionState :=
  {| messages := []; last_df := None; last_result := None;
     selected_followup := selected_followup st;
     pending_followup := pending_followup st;
     email_status := email_status st |}.

End App.

(** ** A decoder for the JSON that the prompt asks for

    Objects, arrays, strings without escape, integers and the three
    literals.  The example environments below take it as their
    [json.loads]; the theorems that quantify over the environment do not
    depend on it. *)

Module Json.

Import Py.

Definition is_ws (c : ascii) : bool :=
  let n := nat_of_ascii c in
  ((n =? 32) || (n =? 9) || (n =? 10) || (n =? 13))%nat.

Fixpoint skip_ws (s : string) : string :=
  match s with
  | String c s' => if is_ws c then skip_ws s' else s
  | EmptyString => EmptyString
  end.

Definition is_digit (c : ascii) : bool :=
  let n := nat_of_ascii c in ((48 <=? n) && (n <=? 57))%nat.

(** The characters up to the closing quote; an escape or a control
    character is outside the fragment. *)
Fixpoint string_body (s : string) : option (string * string) :=
  match s with
  | EmptyString => None
  | String c s' =>
      if Ascii.eqb c (ascii_of_nat 34) then Some (EmptyString, s')
      else if Ascii.eqb c (ascii_of_nat 92) || (nat_of_ascii c <? 32)%nat then None
      else '(b, r) ← string_body s'; Some (String c b, r)
  end.

Fixpoint digits (acc : Z) (s : string) : Z * string :=
  match s with
  | String c s' =>
      if is_digit c
      then digits (10 * acc + Z.of_nat (nat_of_ascii c - 48))%Z s'
      else (acc, s)
  | EmptyString => (acc, s)
  end.

(** An integer: [0] or a digit from 1 to 9 followed by digits; a
    fraction or an exponent is outside the fragment. *)
Definition natural (s : string) : option (Z * string) :=
  match s with
  | String c s' =>
      if negb (is_digit c) then None
      else
        let '(n, r) := if Ascii.eqb c "0" then (0%Z, s') else digits 0 s in
        match r with
        | String d _ =>
            if is_digit d || Ascii.eqb d "." || Ascii.eqb d "e" || Ascii.eqb d "E"
            then None else Some (n, r)
        | EmptyString => Some (n, r)
        end
  | EmptyString => None
  end.

(** The elements of an array after the first bracket, [value] being the
    decoder of one value. *)
Fixpoint elements (fuel : nat) (value : string -> option (pyval * string))
    (s : string) : option (list pyval * string) :=
  match fuel with
  | O => None
  | S fuel' =>
      '(v, r) ← value s;
      match skip_ws r with
      | String "," r' => '(vs, r'') ← elements fuel' value r'; Some (v :: vs, r'')
      | String "]" r' => Some ([v], r')
      | _ => None
      end
  end.

(** The members of an object after the first brace; a key that comes
    again overwrites the earlier value. *)
Fixpoint members (fuel : nat) (value : string -> option (pyval * string))
    (acc : list (string * pyval)) (s : string)
  : option (list (string * pyval) * string) :=
  match fuel with
  | O => None
  | S fuel' =>
      match skip_ws s with
      | String q r =>
          if negb (Ascii.eqb q (ascii_of_nat 34)) then None
          else
            '(k, r) ← string_body r;
            match skip_ws r with
            | String ":" r =>
                '(v, r) ← value r;
                let acc := items_set acc k v in
                match skip_ws r with
                | String "," r' => members fuel' value acc r'
                | String "}" r' => Some (acc, r')
                | _ => None
                end
            | _ => None
            end
      | EmptyString => None
      end
  end.

Fixpoint value (fuel : nat) (s : string) : option (pyval * string) :=
  match fuel with
  | O => None
  | S fuel' =>
      match skip_ws s with
      | String "{" r =>
          match skip_ws r with
          | String "}" r' => Some (PDict [], r')
          | _ => '(d, r') ← members fuel' (value fuel') [] r; Some (PDict d, r')
          end
      | String "[" r =>
          match skip_ws r with
          | String "]" r' => Some (PList [], r')
          | _ => '(l, r') ← elements fuel' (value fuel') r; Some (PList l, r')
          end
      | String "-" r => '(n, r') ← natural r; Some (PInt (- n), r')
      | String c r as s' =>
          if Ascii.eqb c (ascii_of_nat 34)
          then '(b, r') ← string_body r; Some (PStr b, r')
          else if is_digit c then '(n, r') ← natural s'; Some (PInt n, r')
          else match drop_prefix "true" s' with
               | Some r' => Some (PBool true, r')
               | None =>
                   match drop_prefix "false" s' with
                   | Some r' => Some (PBool false, r')
                   | None => (fun r' => (PNone, r')) <$> drop_prefix "null" s'
                   end
               end
      | EmptyString => None
      end
  end.

(** One value and nothing after it but white space. *)
Definition loads (s : string) : exc pyval :=
  match value (S (String.length s)) s with
  | Some (v, r) =>
      match skip_ws r with
      | EmptyString => Ok v
      | _ => Raise (Exn OtherError "Extra data")
      end
  | None => Raise (Exn OtherError "Expecting value")
  end.

End Json.

(** ** Environments for the examples *)

Module Examples.

Import Py Env.

(** An environment in which both client libraries import, the backend
    answers [text] and the warehouse answers [table]. *)
Definition world (text : exc string) (table : exc Pandas.DataFrame) : World :=
  {| GCP_PROJECT_ID := "demo-project";
     GCP_LOCATION := "us-central1";
     BQ_DATASET := "erp_poc";
     import_bigquery := Ok ();
     bigquery_Client := fun _ => Ok ();
     bigquery_query := fun _ => table;
     import_vertexai := Ok ();
     vertexai_init := fun _ _ => Ok ();
     generate_content := fun _ _ _ => text;
     json_loads := Json.loads |}.

(** A machine on which neither client library is installed. *)
Definition bare_world : World :=
  {| GCP_PROJECT_ID := EmptyString;
     GCP_LOCATION := "us-central1";
     BQ_DATASET := "erp_poc";
     import_bigquery := Raise (Exn ImportError "No module named 'google'");
     bigquery_Client := fun _ => Ok ();
     bigquery_query := fun _ => Ok Pandas.DataFrame_new;
     import_vertexai := Raise (Exn ImportError "No module named 'vertexai'");
     vertexai_init := fun _ _ => Ok ();
     generate_content := fun _ _ _ => Ok EmptyString;
     json_loads := Json.loads |}.

Definition deadline : py_exn := Exn OtherError "504 Deadline Exceeded".

Definition not_found : py_exn :=
  Exn OtherError "404 Not found: Table demo-project:erp_poc.sf_deals".

(** A fenced answer that follows the output contract of the prompt. *)
Definition fenced_plan : string :=
  join LF [
    "```json";
    "{" +:+ DQ +:+ "sql" +:+ DQ +:+ ": " +:+ DQ +:+ "SELECT * FROM sf_deals" +:+ DQ +:+ ",";
    " " +:+ DQ +:+ "explanation" +:+ DQ +:+ ": " +:+ DQ +:+ "All deals." +:+ DQ +:+ ",";
    " " +:+ DQ +:+ "chart_type" +:+ DQ +:+ ": " +:+ DQ +:+ "line" +:+ DQ +:+ ",";
    " " +:+ DQ +:+ "x_col" +:+ DQ +:+ ": " +:+ DQ +:+ "stage" +:+ DQ +:+ ",";
    " " +:+ DQ +:+ "y_col" +:+ DQ +:+ ": " +:+ DQ +:+ "amount" +:+ DQ +:+ ",";
    " " +:+ DQ +:+ "followups" +:+ DQ +:+ ": []}";
    "```"
  ].

(** An answer whose chart type is none of the three. *)
Definition scatter_plan : string :=
  "{" +:+ DQ +:+ "sql" +:+ DQ +:+ ": " +:+ DQ +:+ "SELECT 1" +:+ DQ +:+ ", "
      +:+ DQ +:+ "chart_type" +:+ DQ +:+ ": " +:+ DQ +:+ "scatter" +:+ DQ +:+ "}".

(** An answer that is JSON but not an object. *)
Definition array_plan : string := "[]".

Definition salesforce : ModelsConfig.Source :=
  {| ModelsConfig.src_id := "salesforce"; ModelsConfig.src_label := "Salesforce";
     ModelsConfig.src_icon := "☁️";
     ModelsConfig.src_description := "CRM — Leads, Opportunities, Accounts, Cases";
     ModelsConfig.src_color := "#00A1E0"; ModelsConfig.src_local := false |}.

Definition local_salesforce : ModelsConfig.Source :=
  {| ModelsConfig.src_id := "local_salesforce";
     ModelsConfig.src_label := "Local · Salesforce";
     ModelsConfig.src_icon := "💾";
     ModelsConfig.src_description := "Demo CRM data — no GCP needed";
     ModelsConfig.src_color := "#6b7280"; ModelsConfig.src_local := true |}.

(** A semantics for the examples, whose numeric columns are [int64] and
    whose labels are ASCII: there every semantics gives the same cards.
    Its [float64] sums are taken in exact arithmetic, which is what pandas
    returns only when no addition rounds. *)
Definition exact : PyLib.Semantics :=
  {| PyLib.scalar := (Z + Q)%type;
     PyLib.series_sum := fun c =>
       match c with
       | Pandas.ColInt xs => inl (Pandas.int64_sum xs)
       | Pandas.ColFloat xs => inr (Pandas.exact_sum xs)
       | _ => inl 0%Z
       end;
     PyLib.format_comma_0f := fun v =>
       match v with
       | inl z => Fmt.int_comma_0f z
       | inr q => Fmt.comma_0f q
       end;
     PyLib.str_title := title;
     PyLib.title_ascii := fun s _ => eq_refl;
     PyLib.int64_comma_0f := fun xs => eq_refl |}.

(** A table in which two columns carry the label [amount]. *)
Definition twice_amount : Pandas.DataFrame :=
  Pandas.from_dict [
    ("region", Pandas.ColObject ["North"; "South"]);
    ("amount", Pandas.ColInt [10; 20]%Z);
    ("amount", Pandas.ColInt [1; 2]%Z)
  ].

End Examples.

(** ** The card of a numeric column

    What [compute_kpis] appends for the column [p]: the label made from
    the name of the column and the formatted sum. *)
Definition is_kpi_of (B : PyLib.Semantics) (p : string * Pandas.Column)
    (k : App.Kpi) : Prop :=
  App.label k = PyLib.str_title B (Py.replace "_" " " p.1)
  /\ App.value k = PyLib.format_comma_0f B (PyLib.series_sum B p.2).

(** * Properties *)

(** ** String replacement *)

Section Replace.

Import Py.

Variables (a : ascii) (old' : string).

Let old : string := String a old'.

Lemma append_empty_l (s : string) : EmptyString +:+ s = s.
Proof. reflexivity. Qed.

Lemma replace_from_clean (new s : string) :
  contains old s = false -> replace_from 0 old new s = s.
Proof.
  induction s as [|c s IH]; [done|].
  intros H. apply orb_false_iff in H as [Hp Hc].
  cbn [replace_from]. rewrite Hp. f_equal. by apply IH.
Qed.

Lemma replace_from_length (s : string) (skip : nat) :
  String.length (replace_from skip old EmptyString s) <= String.length s.
Proof.
  revert skip. induction s as [|c s IH]; intros skip; [done|].
  cbn [replace_from]. destruct skip as [|k].
  - destruct (String.prefix old (String c s)).
    + specialize (IH (String.length old - 1)). rewrite append_empty_l. simpl in *. lia.
    + specialize (IH 0). simpl. lia.
  - specialize (IH k). simpl. lia.
Qed.

Lemma replace_from_shrinks (s : string) :
  contains old s = true ->
  String.length (replace_from 0 old EmptyString s) < String.length s.
Proof.
  induction s as [|c s IH]; [done|].
  intros H. cbn [replace_from].
  destruct (String.prefix old (String c s)) eqn:Hp.
  - pose proof (replace_from_length s (String.length old - 1)).
    rewrite append_empty_l. simpl in *. lia.
  - cbn [contains] in H. rewrite Hp in H. simpl in H.
    specialize (IH H). simpl. lia.
Qed.

(** Replacing by nothing changes a string exactly when the pattern
    occurs in it. *)
Lemma replace_from_fixed_iff (s : string) :
  replace_from 0 old EmptyString s = s <-> contains old s = false.
Proof.
  split; [|apply replace_from_clean].
  intros Heq. destruct (contains old s) eqn:Hc; [|done].
  apply replace_from_shrinks in Hc. rewrite Heq in Hc. lia.
Qed.

End Replace.

(** Stripping twice differs from stripping once exactly when the first
    result still holds an occurrence. *)
Lemma strip_twice_iff (s : string) :
  ModelsConfig.get_bq_source_id (ModelsConfig.get_bq_source_id s)
    = ModelsConfig.get_bq_source_id s
  <-> Py.contains "local_" (ModelsConfig.get_bq_source_id s) = false.
Proof. apply replace_from_fixed_iff. Qed.

(** ** C5: stripping the offline prefix *)

(** C5 (a defect of the code): [get_bq_source_id] is documented to strip
    the prefix [local_], and C5 has it leave alone an identifier without
    that prefix and be idempotent.  The body is
    [source_id.replace('local_', '')], which removes every occurrence:
    [erp_local_jira] does not start with [local_] and becomes
    [erp_jira]; and in [llocal_ocal_jira] the removal brings the two
    halves of a new occurrence together, so that the first application
    gives [local_jira] and the second gives [jira]. *)
Lemma get_bq_source_id_not_idempotent :
  String.prefix "local_" "erp_local_jira" = false
  /\ ModelsConfig.get_bq_source_id "erp_local_jira" = "erp_jira"
  /\ ModelsConfig.get_bq_source_id "erp_local_jira" <> "erp_local_jira"
  /\ String.prefix "local_" "llocal_ocal_jira" = false
  /\ ModelsConfig.get_bq_source_id "llocal_ocal_jira" = "local_jira"
  /\ ModelsConfig.get_bq_source_id (ModelsConfig.get_bq_source_id "llocal_ocal_jira")
     = "jira"
  /\ ModelsConfig.get_bq_source_id (ModelsConfig.get_bq_source_id "llocal_ocal_jira")
     <> ModelsConfig.get_bq_source_id "llocal_ocal_jira".
Proof. by vm_compute. Qed.

(** X20: where stripping is idempotent.  [get_bq_source_id] leaves unchanged
    every identifier in which [local_] does not occur; applying it twice
    is the same as applying it once whenever [local_] does not occur in
    the first result, which is the case for every identifier of the
    source catalogue. *)
Theorem get_bq_source_id_idempotent (s : string) :
  (Py.contains "local_" s = false -> ModelsConfig.get_bq_source_id s = s)
  /\ (Py.contains "local_" (ModelsConfig.get_bq_source_id s) = false ->
      ModelsConfig.get_bq_source_id (ModelsConfig.get_bq_source_id s)
        = ModelsConfig.get_bq_source_id s)
  /\ (s ∈ ModelsConfig.SOURCE_IDS ->
      ModelsConfig.get_bq_source_id (ModelsConfig.get_bq_source_id s)
        = ModelsConfig.get_bq_source_id s).
Proof.
  unfold ModelsConfig.get_bq_source_id, Py.replace.
  split; [apply replace_from_clean|].
  split; [apply replace_from_clean|].
  intros Hs. apply replace_from_fixed_iff.
  unfold ModelsConfig.SOURCE_IDS in Hs. cbn in Hs.
  repeat (apply elem_of_cons in Hs as [->|Hs]; [by vm_compute|]).
  by apply elem_of_nil in Hs.
Qed.

Lemma get_bq_source_id_idempotent_witness :
  ModelsConfig.get_bq_source_id "jira" = "jira"
  /\ ModelsConfig.get_bq_source_id (ModelsConfig.get_bq_source_id "local_jira")
       = ModelsConfig.get_bq_source_id "local_jira".
Proof.
  split.
  - apply (proj1 (get_bq_source_id_idempotent "jira")). reflexivity.
  - apply (proj2 (proj2 (get_bq_source_id_idempotent "local_jira"))).
    apply (bool_decide_unpack _). vm_compute. exact I.
Defined.

(** ** The catalogues, entry by entry *)

Lemma LOCAL_RESPONSES_lookup (k : string) (plan : Py.pyval) :
  Agent.LOCAL_RESPONSES !! k = Some plan ->
  plan ∈ [Agent.salesforce_response; Agent.netsuite_response;
          Agent.coupa_response; Agent.workday_response;
          Agent.jira_response; Agent.inhouse_response].
Proof.
  unfold Agent.LOCAL_RESPONSES. intros H.
  repeat (apply lookup_insert_Some in H as [[_ <-]|[_ H]]; [set_solver|]).
  by rewrite lookup_empty in H.
Qed.

Lemma MOCK_DATA_lookup (k : string) (df : Pandas.DataFrame) :
  BqClient.MOCK_DATA !! k = Some df ->
  df ∈ [BqClient.salesforce_mock; BqClient.netsuite_mock;
        BqClient.coupa_mock; BqClient.workday_mock;
        BqClient.jira_mock; BqClient.inhouse_mock].
Proof.
  unfold BqClient.MOCK_DATA. intros H.
  repeat (apply lookup_insert_Some in H as [[_ <-]|[_ H]]; [set_solver|]).
  by rewrite lookup_empty in H.
Qed.

Lemma LOCAL_RESPONSES_salesforce :
  Agent.LOCAL_RESPONSES !!! "salesforce" = Agent.salesforce_response.
Proof. reflexivity. Qed.

Lemma MOCK_DATA_salesforce :
  BqClient.MOCK_DATA !!! "salesforce" = BqClient.salesforce_mock.
Proof. reflexivity. Qed.

(** One goal for each member of the list that [H] puts its subject in. *)
Ltac each_member H :=
  first
    [ by apply elem_of_nil in H
    | let E := fresh "E" in
      apply elem_of_cons in H as [E|H]; [vm_compute in E | each_member H] ].

(** ** C1: the degraded plan *)

Section DegradedPlan.

Import Py Env.

Variable W : World.
Variables question model_id : string.

(** A failure of any of the four steps is a failure of the body. *)
Lemma vertex_plan_raises (base : string) (e : py_exn) :
  import_vertexai W = Raise e
  \/ (import_vertexai W = Ok () /\
      vertexai_init W (GCP_PROJECT_ID W) (GCP_LOCATION W) = Raise e)
  \/ (import_vertexai W = Ok () /\
      vertexai_init W (GCP_PROJECT_ID W) (GCP_LOCATION W) = Ok () /\
      ((forall system, generate_content W model_id system
                         ("Business question: " +:+ question) = Raise e)
       \/ exists text,
            (forall system, generate_content W model_id system
                              ("Business question: " +:+ question) = Ok text)
            /\ json_loads W (Agent.strip_fence_close
                               (Agent.strip_fence_open (strip text))) = Raise e)) ->
  Agent.vertex_plan W question model_id base = Raise e.
Proof.
  unfold Agent.vertex_plan.
  intros [H|[[H1 H]|(H1 & H2 & [H|(text & H & Hj)])]].
  - by rewrite H.
  - by rewrite H1; cbn; rewrite H.
  - by rewrite H1; cbn; rewrite H2; cbn; rewrite H.
  - by rewrite H1; cbn; rewrite H2; cbn; rewrite H; cbn.
Qed.

(** C1: when the backend call or the parsing of its answer raises [e],
    the live plan generator returns a dict with the six plan keys and
    [error]: the placeholder comment as [sql], the diagnostic behind a
    marker that no pre-authored explanation starts with, [bar], two empty
    axis hints, no follow-up, and [str(e)] as [error]. *)
Theorem run_agent_degraded_plan (source_id : string) (e : py_exn) :
  Agent.vertex_plan W question model_id
    (ModelsConfig.get_bq_source_id source_id) = Raise e ->
  exists d,
    Agent.run_agent W question model_id source_id false = PDict d
    /\ keys d = ["sql"; "explanation"; "chart_type"; "x_col"; "y_col";
                 "followups"; "error"]
    /\ items_get d "sql" = Some (PStr "-- Error generating SQL")
    /\ items_get d "explanation"
         = Some (PStr ("⚠️ Vertex AI error: " +:+ exn_str e))
    /\ items_get d "chart_type" = Some (PStr "bar")
    /\ items_get d "x_col" = Some (PStr EmptyString)
    /\ items_get d "y_col" = Some (PStr EmptyString)
    /\ items_get d "followups" = Some (PList [])
    /\ items_get d "error" = Some (PStr (exn_str e))
    /\ forall k p s,
         Agent.LOCAL_RESPONSES !! k = Some (PDict p) ->
         items_get p "explanation" = Some (PStr s) ->
         String.prefix "⚠️ Vertex AI error: " s = false.
Proof.
  intros H. eexists.
  unfold Agent.run_agent, Agent._call_vertex_ai.
  unfold ModelsConfig.get_bq_source_id in H. rewrite H.
  repeat split.
  intros k p s Hk Hs. apply LOCAL_RESPONSES_lookup in Hk.
  each_member Hk; injection E as ->; vm_compute in Hs;
    injection Hs as <-; reflexivity.
Qed.

End DegradedPlan.

Lemma run_agent_degraded_plan_witness :
  exists d,
    Agent.run_agent (Examples.world (Py.Raise Examples.deadline)
                       (Py.Ok Pandas.DataFrame_new))
      "Top deals?" "gemini-2.0-flash-001" "salesforce" false = Py.PDict d
    /\ Py.items_get d "error" = Some (Py.PStr "504 Deadline Exceeded").
Proof.
  destruct (run_agent_degraded_plan
              (Examples.world (Py.Raise Examples.deadline)
                 (Py.Ok Pandas.DataFrame_new))
              "Top deals?" "gemini-2.0-flash-001" "salesforce"
              Examples.deadline eq_refl)
    as (d & Hd & _ & _ & _ & _ & _ & _ & _ & He & _).
  exists d. split; [exact Hd | exact He].
Defined.

(** ** C2 and C9: the error half of an execution *)

Section ExecuteSql.

Import Py Env.

Variable W : World.
Variable sql : pyval.
Variables source_id question : string.

(** C2: in either mode, an error that is not [None] comes with
    [pd.DataFrame()], the table with no row and no column. *)
Theorem execute_sql_error_empty (is_local : bool) (err : string) :
  (BqClient.execute_sql W sql source_id question is_local).2 = Some err ->
  (BqClient.execute_sql W sql source_id question is_local).1 = Pandas.DataFrame_new
  /\ Pandas.df_len (BqClient.execute_sql W sql source_id question is_local).1 = 0
  /\ Pandas.df_columns (BqClient.execute_sql W sql source_id question is_local).1 = [].
Proof.
  unfold BqClient.execute_sql.
  destruct is_local; [done|].
  destruct (BqClient.live_query W sql) as [df|e]; [done|].
  by destruct (exn_cls e).
Qed.

(** The converse does not hold: a query can succeed with no row. *)
Lemma execute_sql_empty_without_error :
  bigquery_query W sql = Ok Pandas.DataFrame_new ->
  import_bigquery W = Ok () ->
  bigquery_Client W (GCP_PROJECT_ID W) = Ok () ->
  BqClient.execute_sql W sql source_id question false = (Pandas.DataFrame_new, None).
Proof.
  intros Hq Hi Hc. unfold BqClient.execute_sql, BqClient.live_query.
  by rewrite Hi; cbn; rewrite Hc; cbn; rewrite Hq.
Qed.

(** C9: when the import of the BigQuery client fails, the live execution
    returns the empty table and one fixed message, which names the
    package and the command that installs it and does not depend on the
    text of the exception. *)
Theorem execute_sql_missing_bigquery (e : py_exn) :
  import_bigquery W = Raise e ->
  exn_cls e = ImportError ->
  exists msg,
    BqClient.execute_sql W sql source_id question false
      = (Pandas.DataFrame_new, Some msg)
    /\ msg = "google-cloud-bigquery not installed. Run: pip install google-cloud-bigquery"
    /\ contains "google-cloud-bigquery" msg = true
    /\ contains "pip install google-cloud-bigquery" msg = true.
Proof.
  intros Hi He. eexists.
  unfold BqClient.execute_sql, BqClient.live_query.
  rewrite Hi. cbn. rewrite He. by repeat split.
Qed.

(** Any other failure of the live execution hands over [str(e)]. *)
Lemma execute_sql_other_failure (e : py_exn) :
  BqClient.live_query W sql = Raise e ->
  exn_cls e <> ImportError ->
  BqClient.execute_sql W sql source_id question false
    = (Pandas.DataFrame_new, Some (exn_str e)).
Proof.
  intros Hq He. unfold BqClient.execute_sql. rewrite Hq.
  by destruct (exn_cls e).
Qed.

End ExecuteSql.

Lemma execute_sql_error_empty_witness :
  (BqClient.execute_sql
     (Examples.world (Py.Ok Examples.fenced_plan) (Py.Raise Examples.not_found))
     (Py.PStr "SELECT * FROM sf_deals") "salesforce" "All deals?" false).1
  = Pandas.DataFrame_new.
Proof.
  apply (execute_sql_error_empty
           (Examples.world (Py.Ok Examples.fenced_plan) (Py.Raise Examples.not_found))
           (Py.PStr "SELECT * FROM sf_deals") "salesforce" "All deals?" false
           "404 Not found: Table demo-project:erp_poc.sf_deals").
  reflexivity.
Defined.

Lemma execute_sql_missing_bigquery_witness :
  (BqClient.execute_sql Examples.bare_world (Py.PStr "SELECT 1") "jira"
     "How many?" false).2
  = Some "google-cloud-bigquery not installed. Run: pip install google-cloud-bigquery".
Proof.
  destruct (execute_sql_missing_bigquery Examples.bare_world (Py.PStr "SELECT 1")
              "jira" "How many?"
              (Py.Exn Py.ImportError "No module named 'google'") eq_refl eq_refl)
    as (msg & Hr & -> & _).
  by rewrite Hr.
Defined.

(** ** C3: the pre-authored plans *)

Section LocalPlans.

Import Py Env.


End LocalPlans.


(** ** C4: the fixture tables *)

Section LocalTables.

Import Py Env.

Lemma get_mock_df_cases (base : string) :
  (BqClient.MOCK_DATA !! base = Some (BqClient.get_mock_df base))
  \/ (BqClient.MOCK_DATA !! base = None
      /\ BqClient.MOCK_DATA !! "salesforce" = Some (BqClient.get_mock_df base)).
Proof.
  unfold BqClient.get_mock_df.
  destruct (BqClient.MOCK_DATA !! base) as [df|] eqn:H; [by left|by right].
Qed.

Lemma get_mock_df_not_empty (base : string) :
  Pandas.empty (BqClient.get_mock_df base) = false.
Proof.
  unfold BqClient.get_mock_df.
  destruct (BqClient.MOCK_DATA !! base) as [df|] eqn:H; [|done].
  apply MOCK_DATA_lookup in H. cbn [default].
  each_member H; by subst df.
Qed.


End LocalTables.

(** Scenario A of the specification: the salesforce fixture has six rows. *)
Lemma scenario_salesforce_fixture :
  (BqClient.execute_sql Examples.bare_world (Py.PStr "SELECT 1")
     "local_salesforce" "anything" true)
  = (BqClient.salesforce_mock, None)
  /\ Pandas.df_len BqClient.salesforce_mock = 6.
Proof. done. Qed.

(** ** C6: the chart type of a plan *)

(** C6, as the specification states it, fails on the live path: the plan
    is the value that [json.loads] returns, so a chart type outside the
    three, or no chart type at all, reaches the caller as it is. *)
Lemma live_plan_chart_type_unchecked :
  (exists d,
      Agent.run_agent
        (Examples.world (Py.Ok Examples.scatter_plan) (Py.Ok Pandas.DataFrame_new))
        "Deals by size?" "gemini-2.0-flash-001" "salesforce" false = Py.PDict d
      /\ Py.items_get d "chart_type" = Some (Py.PStr "scatter")
      /\ "scatter" ∉ ["bar"; "line"; "pie"])
  /\ (exists d,
         Agent.run_agent
           (Examples.world (Py.Ok "{}") (Py.Ok Pandas.DataFrame_new))
           "Deals by size?" "gemini-2.0-flash-001" "salesforce" false = Py.PDict d
         /\ Py.items_get d "chart_type" = None).
Proof.
  split; eexists; (split; [vm_compute; reflexivity|]); [|done].
  split; [done|]. intros H. each_member H; discriminate E.
Qed.

Section ChartType.

Import Py Env.

Variable W : World.
Variables question model_id source_id : string.

Lemma local_plan_is_bar :
  exists d,
    Agent.run_agent W question model_id source_id true = PDict d
    /\ items_get d "chart_type" = Some (PStr "bar").
Proof.
  unfold Agent.run_agent.
  destruct (Agent.LOCAL_RESPONSES !! _) as [plan|] eqn:H.
  - apply LOCAL_RESPONSES_lookup in H. cbn [default].
    each_member H; subst plan; by eexists.
  - by eexists.
Qed.

(** C6 (amended): the plan of the offline path and the plan of the live
    path when the backend call or the parsing raises have the chart type
    [bar]; when the answer of the backend parses, the live path returns
    the parsed value as it is, whatever its chart type; the chart builder
    then draws a bar chart for every chart type other than [pie] and
    [line]. *)
Theorem run_agent_chart_type :
  (exists d,
      Agent.run_agent W question model_id source_id true = PDict d
      /\ items_get d "chart_type" = Some (PStr "bar"))
  /\ (forall e,
         Agent.vertex_plan W question model_id
           (ModelsConfig.get_bq_source_id source_id) = Raise e ->
         exists d,
           Agent.run_agent W question model_id source_id false = PDict d
           /\ items_get d "chart_type" = Some (PStr "bar"))
  /\ (forall plan,
         Agent.vertex_plan W question model_id
           (ModelsConfig.get_bq_source_id source_id) = Ok plan ->
         Agent.run_agent W question model_id source_id false = plan)
  /\ (forall df chart_type x_col y_col call,
         App.build_chart df chart_type x_col y_col = Some call ->
         chart_type <> PStr "pie" -> chart_type <> PStr "line" ->
         Plot.kind call = Plot.Bar).
Proof.
  split; [apply local_plan_is_bar|].
  unfold Agent.run_agent, Agent._call_vertex_ai, ModelsConfig.get_bq_source_id.
  split; [|split].
  - intros e ->. by eexists.
  - by intros plan ->.
  - intros [df|] chart_type x_col y_col call; [|done]. cbn.
    destruct (Pandas.empty df); [done|].
    intros [= <-] Hpie Hline. cbn.
    repeat case_match; congruence.
Qed.

End ChartType.

Lemma run_agent_chart_type_witness :
  Agent.run_agent
    (Examples.world (Py.Ok Examples.fenced_plan) (Py.Ok Pandas.DataFrame_new))
    "All deals?" "gemini-1.5-pro-002" "salesforce" false
  = Py.PDict [("sql", Py.PStr "SELECT * FROM sf_deals");
              ("explanation", Py.PStr "All deals.");
              ("chart_type", Py.PStr "line");
              ("x_col", Py.PStr "stage"); ("y_col", Py.PStr "amount");
              ("followups", Py.PList [])].
Proof.
  apply (proj1 (proj2 (proj2
           (run_agent_chart_type
              (Examples.world (Py.Ok Examples.fenced_plan)
                 (Py.Ok Pandas.DataFrame_new))
              "All deals?" "gemini-1.5-pro-002" "salesforce")))).
  vm_compute. reflexivity.
Defined.

(** ** C8: the axes of a chart *)

Section Axes.

Import Py.

(** The numeric columns, in the order of the table. *)
Lemma select_dtypes_number_columns (df : Pandas.DataFrame) (n : string) :
  n ∈ Pandas.columns (Pandas.select_dtypes_number df)
  <-> exists c, (n, c) ∈ Pandas.df_columns df /\ Pandas.is_number c = true.
Proof.
  unfold Pandas.columns, Pandas.select_dtypes_number. cbn.
  rewrite list_elem_of_fmap. split.
  - intros [[n' c] [-> H]]. apply list_elem_of_In, filter_In in H as [H1 H2].
    exists c. split; [by apply list_elem_of_In|done].
  - intros [c [H1 H2]]. exists (n, c). split; [done|].
    apply list_elem_of_In, filter_In. split; [by apply list_elem_of_In|done].
Qed.

Lemma not_empty_columns (df : Pandas.DataFrame) :
  Pandas.empty df = false ->
  exists first_col last_col,
    head (Pandas.columns df) = Some first_col
    /\ last (Pandas.columns df) = Some last_col.
Proof.
  unfold Pandas.empty, Pandas.columns. intros H.
  apply orb_false_iff in H as [_ H]. apply Nat.eqb_neq in H.
  destruct (Pandas.df_columns df) as [|c cs] eqn:Hc; [done|].
  exists c.1. destruct (last (c :: cs).*1) as [l|] eqn:Hl; [by exists l|].
  by apply last_None in Hl.
Qed.

Lemma build_chart_html_same (df : option Pandas.DataFrame)
    (chart_type x_col y_col : pyval) :
  ReportGenerator._build_chart_html df chart_type x_col y_col
  = App.build_chart df chart_type x_col y_col.
Proof. reflexivity. Qed.

(** C8: on a table that is not empty, both chart builders take the
    requested x axis when it is a column and the first column otherwise;
    they take the requested y axis when it is a column other than the
    resolved x axis, and otherwise the first numeric column, or the last
    column when no column is numeric. *)
Theorem build_chart_axes (df : Pandas.DataFrame) (chart_type : pyval)
    (x_col y_col : string) :
  Pandas.empty df = false ->
  let cols := Pandas.columns df in
  let numeric := Pandas.columns (Pandas.select_dtypes_number df) in
  exists call,
    App.build_chart (Some df) chart_type (PStr x_col) (PStr y_col) = Some call
    /\ ReportGenerator._build_chart_html (Some df) chart_type (PStr x_col)
         (PStr y_col) = Some call
    /\ (x_col ∈ cols -> Plot.x call = x_col)
    /\ (x_col ∉ cols -> head cols = Some (Plot.x call))
    /\ (y_col ∈ cols -> y_col <> Plot.x call -> Plot.y call = y_col)
    /\ (y_col ∉ cols \/ y_col = Plot.x call ->
        match head numeric with
        | Some n => Plot.y call = n
        | None => last cols = Some (Plot.y call)
        end).
Proof.
  intros Hne cols numeric.
  destruct (not_empty_columns df Hne) as (c0 & cl & Hc0 & Hcl).
  destruct (App.build_chart (Some df) chart_type (PStr x_col) (PStr y_col))
    as [call|] eqn:Hb;
    unfold App.build_chart in Hb; rewrite Hne in Hb; [|done].
  exists call. split; [done|].
  split; [by rewrite build_chart_html_same; unfold App.build_chart; rewrite Hne|].
  fold cols numeric in Hb. fold cols in Hc0, Hcl.
  rewrite Hc0, Hcl in Hb. cbn [default] in Hb.
  injection Hb as <-. cbn [Plot.x Plot.y].
  repeat split.
  - intros Hx. by rewrite bool_decide_eq_true_2.
  - intros Hx. by rewrite bool_decide_eq_false_2.
  - intros Hy Hyx. rewrite (bool_decide_eq_true_2 _ Hy). cbn [negb orb].
    destruct (String.eqb_spec y_col
                (if bool_decide (x_col ∈ cols) then x_col else c0)); done.
  - intros [Hy|Hy].
    + rewrite (bool_decide_eq_false_2 _ Hy). cbn [negb orb].
      by destruct (head numeric).
    + destruct (String.eqb_spec y_col
                  (if bool_decide (x_col ∈ cols) then x_col else c0)) as [_|Hn];
        [|done].
      rewrite orb_true_r. by destruct (head numeric).
Qed.

End Axes.

Lemma build_chart_axes_witness :
  exists call,
    App.build_chart (Some BqClient.workday_mock) (Py.PStr "pie")
      (Py.PStr "team") (Py.PStr "department") = Some call
    /\ Plot.x call = "department" /\ Plot.y call = "headcount".
Proof.
  destruct (build_chart_axes BqClient.workday_mock (Py.PStr "pie")
              "team" "department" eq_refl)
    as (call & Hc & _ & _ & Hx & _ & Hy).
  exists call. split; [exact Hc|].
  assert (Hx' : head (Pandas.columns BqClient.workday_mock) = Some (Plot.x call)).
  { apply Hx. intros H. each_member H; discriminate E. }
  injection Hx' as Hx'. split; [by rewrite <- Hx'|].
  apply (Hy (or_intror Hx')).
Defined.

(** ** C10: the KPI cards *)

Section Kpis.

Import Py.

Lemma is_ascii_append (a b : string) :
  is_ascii (a +:+ b) = is_ascii a && is_ascii b.
Proof.
  induction a as [|c a IH]; [reflexivity|].
  change (String c a +:+ b) with (String c (a +:+ b)).
  cbn [is_ascii]. by rewrite IH, andb_assoc.
Qed.

(** Replacing inside an ASCII string by an ASCII string leaves an ASCII
    string. *)
Lemma is_ascii_replace_from (old new s : string) (skip : nat) :
  is_ascii new = true -> is_ascii s = true ->
  is_ascii (replace_from skip old new s) = true.
Proof.
  intros Hnew. revert skip.
  induction s as [|c s IH]; intros skip Hs; [reflexivity|].
  cbn [is_ascii] in Hs. apply andb_prop in Hs as [Hc Hs].
  cbn [replace_from]. destruct skip as [|k]; [|by apply IH].
  destruct (String.prefix old (String c s)).
  - rewrite is_ascii_append, Hnew. by apply IH.
  - cbn [is_ascii]. rewrite Hc. by apply IH.
Qed.

(** The number of columns of a table that carry the label [n]. *)
Lemma filter_label_one (l : list (string * Pandas.Column)) (n : string)
    (c : Pandas.Column) :
  length (List.filter (fun '(n', _) => String.eqb n' n) l) = 1 ->
  (n, c) ∈ l ->
  List.filter (fun '(n', _) => String.eqb n' n) l = [(n, c)].
Proof.
  intros Hlen Hin.
  assert (Hf : (n, c) ∈ List.filter (fun '(n', _) => String.eqb n' n) l).
  { apply list_elem_of_In, filter_In. split; [by apply list_elem_of_In|].
    apply String.eqb_refl. }
  destruct (List.filter _ l) as [|p [|p' t]]; try done.
  apply list_elem_of_singleton in Hf. by subst p.
Qed.

Variable B : PyLib.Semantics.
Variable df : Pandas.DataFrame.

Lemma kpi_loop_numeric (ps : list (string * Pandas.Column)) (kpis : list App.Kpi) :
  (forall p, p ∈ ps ->
     p ∈ Pandas.df_columns df
     /\ length (List.filter (fun '(n', _) => String.eqb n' p.1)
                  (Pandas.df_columns df)) = 1) ->
  exists entries,
    App.kpi_loop B df ps.*1 kpis = Ok (kpis ++ entries)
    /\ Forall2 (is_kpi_of B) ps entries.
Proof.
  revert kpis. induction ps as [|[n c] ps IH]; intros kpis Hps.
  - exists []. by rewrite app_nil_r.
  - destruct (Hps (n, c)) as [Hin Hone]; [by left|].
    cbn [fmap list_fmap fst App.kpi_loop]. unfold App.kpi_value.
    rewrite (filter_label_one _ n c Hone Hin). cbn [mbind exc_bind bind].
    destruct (IH (kpis ++
                    [{| App.label := PyLib.str_title B (Py.replace "_" " " n);
                        App.value :=
                          PyLib.format_comma_0f B (PyLib.series_sum B c) |}]))
      as (entries & -> & Hall).
    { intros p Hp. apply Hps. by right. }
    eexists (_ :: entries). rewrite <- app_assoc. split; [reflexivity|].
    by constructor.
Qed.

(** A label that two columns carry makes the format raise. *)
Lemma kpi_value_repeated (n : string) :
  (1 < length (List.filter (fun '(n', _) => String.eqb n' n)
                 (Pandas.df_columns df)))%nat ->
  exists e, App.kpi_value B df n = Raise e /\ exn_cls e = TypeError.
Proof.
  unfold App.kpi_value. intros H.
  destruct (List.filter _ _) as [|[n1 c1] [|p2 t]]; cbn in H; try lia;
    by eexists.
Qed.

(** The loop stops at the first label that is not carried by exactly one
    column. *)
Lemma kpi_loop_repeated (cols : list string) (kpis : list App.Kpi) (n : string) :
  n ∈ cols ->
  length (List.filter (fun '(n', _) => String.eqb n' n)
            (Pandas.df_columns df)) <> 1 ->
  exists e, App.kpi_loop B df cols kpis = Raise e /\ exn_cls e = TypeError.
Proof.
  intros Hn Hlen. revert kpis.
  induction cols as [|c cols IH]; intros kpis; [by apply elem_of_nil in Hn|].
  cbn [App.kpi_loop]. unfold App.kpi_value.
  destruct (List.filter (fun '(n', _) => String.eqb n' c) (Pandas.df_columns df))
    as [|[n1 c1] [|p2 t]] eqn:Hf; cbn [mbind exc_bind bind];
    [by eexists| |by eexists].
  apply elem_of_cons in Hn as [->|Hn].
  - by rewrite Hf in Hlen.
  - apply (IH Hn).
Qed.

End Kpis.

(** On the salesforce fixture every semantics gives the same cards: its
    labels are ASCII and its numeric columns are [int64]. *)
Lemma compute_kpis_salesforce (B : PyLib.Semantics) :
  App.compute_kpis B BqClient.salesforce_mock
  = Py.Ok [{| App.label := "Records"; App.value := "6" |};
           {| App.label := "Deal Count"; App.value := "150" |};
           {| App.label := "Total Value"; App.value := "9,690,000" |}].
Proof.
  unfold App.compute_kpis.
  change (take 2 (Pandas.columns
                    (Pandas.select_dtypes_number BqClient.salesforce_mock)))
    with ["deal_count"; "total_value"].
  cbn [App.kpi_loop]. unfold App.kpi_value.
  change (List.filter (fun '(n, _) => String.eqb n "deal_count")
            (Pandas.df_columns BqClient.salesforce_mock))
    with [("deal_count", Pandas.ColInt [45; 32; 28; 15; 22; 8]%Z)].
  change (List.filter (fun '(n, _) => String.eqb n "total_value")
            (Pandas.df_columns BqClient.salesforce_mock))
    with [("total_value",
           Pandas.ColInt [890000; 1250000; 2100000; 1800000; 3200000; 450000]%Z)].
  cbn [mbind exc_bind Py.bind].
  rewrite !PyLib.int64_comma_0f.
  rewrite !PyLib.title_ascii by reflexivity.
  by vm_compute.
Qed.




(** X18: the condition of [compute_kpis_cards] is the one the code needs.
    When the name of one of the first two numeric columns is carried by
    more than one column, [df[col]] is a table, its sum is a series, the
    format rejects it and [compute_kpis] raises [TypeError]. *)
Theorem compute_kpis_repeated_label (B : PyLib.Semantics)
    (df : Pandas.DataFrame) (n : string) :
  n ∈ take 2 (Pandas.columns (Pandas.select_dtypes_number df)) ->
  length (List.filter (fun '(n', _) => String.eqb n' n)
            (Pandas.df_columns df)) <> 1 ->
  exists e, App.compute_kpis B df = Py.Raise e /\ Py.exn_cls e = Py.TypeError.
Proof.
  intros Hn Hlen. unfold App.compute_kpis.
  destruct (kpi_loop_repeated B df _
              [{| App.label := "Records";
                  App.value := Fmt.comma (Pandas.df_len df) |}] n Hn Hlen)
    as (e & -> & He).
  by exists e.
Qed.

Lemma compute_kpis_repeated_label_witness :
  exists e,
    App.compute_kpis Examples.exact Examples.twice_amount = Py.Raise e
    /\ Py.exn_cls e = Py.TypeError.
Proof.
  apply (compute_kpis_repeated_label Examples.exact Examples.twice_amount "amount").
  - apply (bool_decide_unpack _). vm_compute. exact I.
  - vm_compute. discriminate.
Defined.

(** ** C7: what a turn writes *)

(** C7 (a defect of the code): [run_agent] is annotated and documented to
    return a dict, but [_call_vertex_ai] returns whatever [json.loads]
    gives.  When the backend answers with JSON that is not an object, here
    the array [[]], [run_agent] returns the list, [result.get] raises
    [AttributeError], the exception leaves [run_query], and the turn that
    C7 promises for every question is not written: the log gets no entry
    and the result slots are not overwritten. *)
Lemma run_query_plan_not_object :
  Agent.run_agent
    (Examples.world (Py.Ok Examples.array_plan) (Py.Ok Pandas.DataFrame_new))
    "Top deals?" "gemini-2.0-flash-001" "salesforce" false = Py.PList []
  /\ exists e,
       App.run_query
         (Examples.world (Py.Ok Examples.array_plan) (Py.Ok Pandas.DataFrame_new))
         App.initial_state "Top deals?" "gemini-2.0-flash-001" Examples.salesforce
       = (App.initial_state, Some e)
       /\ Py.exn_cls e = Py.AttributeError
       /\ App.messages App.initial_state = [].
Proof. split; [by vm_compute|]. eexists. by vm_compute. Qed.

Section Turn.

Import Py Env.

Variable W : World.
Variable st : App.SessionState.
Variables question model_id : string.
Variable source : ModelsConfig.Source.

Let local : bool := ModelsConfig.is_local_source source.
Let plan : pyval :=
  Agent.run_agent W question model_id (ModelsConfig.src_id source) local.

(** X19: the turn that a dict plan writes.  For every question whose plan is
    a dict, [run_query] appends exactly two entries to the log, the user
    turn with the question and then the agent turn, leaves the earlier
    entries and the other session slots as they were, and sets [last_df]
    to the executed table when the execution error is [None] and to
    [None] otherwise.  [last_result] is the plan unless the explanation is
    a list and the error is a non-empty string, in which case the list was
    extended in place.  When the explanation of the plan is a string (the
    empty string when the plan has none), no exception escapes and the
    content of the agent turn is the explanation, alone when the error is
    [None] or empty and followed by the warning when the error is a
    non-empty string. *)
Theorem run_query_turn (d : list (string * pyval)) :
  plan = PDict d ->
  let sql := default (PStr EmptyString) (items_get d "sql") in
  let explanation := default (PStr EmptyString) (items_get d "explanation") in
  let executed :=
    BqClient.execute_sql W sql (ModelsConfig.src_id source) question local in
  exists st' escaped content label,
    App.run_query W st question model_id source = (st', escaped)
    /\ App.messages st'
       = App.messages st
         ++ [{| App.role := "user"; App.content := PStr question;
                App.model := None |};
             {| App.role := "ai"; App.content := content;
                App.model := Some label |}]
    /\ App.last_df st'
       = match executed.2 with None => Some executed.1 | Some _ => None end
    /\ App.selected_followup st' = App.selected_followup st
    /\ App.pending_followup st' = App.pending_followup st
    /\ App.email_status st' = App.email_status st
    /\ ((forall l, explanation <> PList l)
        \/ executed.2 = None \/ executed.2 = Some EmptyString ->
        App.last_result st' = Some plan)
    /\ forall s,
         explanation = PStr s ->
         escaped = None
         /\ App.last_result st' = Some plan
         /\ (executed.2 = None \/ executed.2 = Some EmptyString ->
             content = PStr s)
         /\ (forall e, executed.2 = Some e -> e <> EmptyString ->
             content = PStr (s +:+ LF +:+ LF +:+ "⚠️ Query error: " +:+ e)).
Proof.
  intros Hplan sql explanation executed.
  unfold App.run_query. fold local. fold plan. rewrite Hplan.
  cbn [py_get]. fold sql explanation executed.
  destruct executed as [df [[|a e]|]] eqn:Hex; cbn [fst snd].
  - do 4 eexists. do 6 (split; [reflexivity|]).
    split; [done|].
    intros s Hs. do 3 (split; [done|]).
    intros e' [= <-] He. done.
  - destruct (App.iadd_str explanation (App.query_error (String a e)))
      as [c|ex] eqn:Hadd.
    + do 4 eexists. do 6 (split; [reflexivity|]).
      split.
      * intros [Hl|[Hn|Hn]]; [|done..].
        cbn [App.last_result]. f_equal.
        unfold App.plan_after_iadd.
        destruct c as [| | | | |l|]; try reflexivity.
        destruct explanation as [| | | | |l'|] eqn:He; try done.
        by destruct (Hl l').
      * intros s Hs. rewrite Hs in Hadd. injection Hadd as <-.
        split; [done|]. split; [done|].
        split; [by intros [?|?]|].
        intros e' [= <-] _. reflexivity.
    + do 4 eexists. do 6 (split; [reflexivity|]).
      split; [done|].
      intros s Hs. by rewrite Hs in Hadd.
  - do 4 eexists. do 6 (split; [reflexivity|]).
    split; [done|].
    intros s Hs. do 3 (split; [done|]). done.
Qed.

(** The entries that were in the log stay where they were. *)
Lemma run_query_keeps_log (i : nat) (m : App.Message) :
  App.messages st !! i = Some m ->
  App.messages (App.run_query W st question model_id source).1 !! i = Some m.
Proof.
  intros Hi. unfold App.run_query.
  destruct (py_get _ "sql" _) as [sql|e]; [|done].
  destruct (BqClient.execute_sql _ _ _ _ _) as [df [[|a err]|]];
    (destruct (py_get _ "explanation" _) as [explanation|e];
     [|by apply lookup_app_l_Some]).
  - by apply lookup_app_l_Some.
  - destruct (App.iadd_str _ _); by apply lookup_app_l_Some.
  - by apply lookup_app_l_Some.
Qed.

End Turn.

Lemma run_query_turn_witness :
  exists st',
    App.run_query
      (Examples.world (Py.Ok Examples.fenced_plan) (Py.Raise Examples.not_found))
      App.initial_state "All deals?" "gemini-1.5-pro-002" Examples.salesforce
    = (st', None)
    /\ App.last_df st' = None
    /\ length (App.messages st') = 2.
Proof.
  destruct (run_query_turn
              (Examples.world (Py.Ok Examples.fenced_plan)
                 (Py.Raise Examples.not_found))
              App.initial_state "All deals?" "gemini-1.5-pro-002"
              Examples.salesforce
              [("sql", Py.PStr "SELECT * FROM sf_deals");
               ("explanation", Py.PStr "All deals.");
               ("chart_type", Py.PStr "line");
               ("x_col", Py.PStr "stage"); ("y_col", Py.PStr "amount");
               ("followups", Py.PList [])])
    as (st' & escaped & content & label & Hrun & Hlog & Hdf & _ & _ & _ & _ & Hs).
  - vm_compute. reflexivity.
  - destruct (Hs "All deals." eq_refl) as (-> & _).
    exists st'. split; [exact Hrun|]. split; [exact Hdf|].
    rewrite Hlog. reflexivity.
Defined.

(** Scenario C of the specification, and the one error it does not
    cover.  A connectivity fault leaves no table and a warning in the
    log; a fault whose text is empty leaves no table and no warning. *)
Lemma run_query_warning :
  (App.run_query
     (Examples.world (Py.Ok Examples.fenced_plan) (Py.Raise Examples.not_found))
     App.initial_state "All deals?" "gemini-1.5-pro-002" Examples.salesforce).1
  = {| App.messages :=
         [{| App.role := "user"; App.content := Py.PStr "All deals?";
             App.model := None |};
          {| App.role := "ai";
             App.content :=
               Py.PStr ("All deals." +:+ Py.LF +:+ Py.LF +:+
                        "⚠️ Query error: 404 Not found: Table demo-project:erp_poc.sf_deals");
             App.model := Some "Gemini 1.5 Pro 🧠" |}];
       App.last_df := None;
       App.last_result :=
         Some (Py.PDict [("sql", Py.PStr "SELECT * FROM sf_deals");
                         ("explanation", Py.PStr "All deals.");
                         ("chart_type", Py.PStr "line");
                         ("x_col", Py.PStr "stage"); ("y_col", Py.PStr "amount");
                         ("followups", Py.PList [])]);
       App.selected_followup := None; App.pending_followup := None;
       App.email_status := None |}.
Proof. by vm_compute. Qed.

Lemma run_query_empty_error_silent :
  let st' :=
    (App.run_query
       (Examples.world (Py.Ok Examples.fenced_plan)
          (Py.Raise (Py.Exn Py.OtherError EmptyString)))
       App.initial_state "All deals?" "gemini-1.5-pro-002" Examples.salesforce).1 in
  (BqClient.execute_sql
     (Examples.world (Py.Ok Examples.fenced_plan)
        (Py.Raise (Py.Exn Py.OtherError EmptyString)))
     (Py.PStr "SELECT * FROM sf_deals") "salesforce" "All deals?" false).2
  = Some EmptyString
  /\ App.last_df st' = None
  /\ App.content <$> App.messages st'
     = [Py.PStr "All deals?"; Py.PStr "All deals."].
Proof. by vm_compute. Qed.

(** ** The end-to-end scenarios of the specification *)

(** Scenario A: on [local_salesforce] the plan asks for a bar chart over
    [stage], the table has six rows and the first card counts them. *)
Lemma scenario_local_salesforce :
  let st' :=
    (App.run_query Examples.bare_world App.initial_state "Anything at all"
       "gemini-2.0-flash-001" Examples.local_salesforce).1 in
  App.last_result st' = Some Agent.salesforce_response
  /\ Py.items_get
       (match Agent.salesforce_response with Py.PDict d => d | _ => [] end)
       "x_col" = Some (Py.PStr "stage")
  /\ App.last_df st' = Some BqClient.salesforce_mock
  /\ Pandas.df_len BqClient.salesforce_mock = 6
  /\ Py.bind (App.compute_kpis Examples.exact BqClient.salesforce_mock)
       (fun kpis => Py.Ok (head kpis))
     = Py.Ok (Some {| App.label := "Records"; App.value := "6" |}).
Proof. by vm_compute. Qed.

(** Scenario B: the workday fixture has a column [attrition_rate] and
    the workday plan suggests three questions. *)
Lemma scenario_local_workday :
  (BqClient.execute_sql Examples.bare_world (Py.PStr "SELECT 1")
     "local_workday" "Attrition?" true).1 = BqClient.workday_mock
  /\ "attrition_rate" ∈ Pandas.columns BqClient.workday_mock
  /\ exists d followups,
       Agent.run_agent Examples.bare_world "Attrition?" "gemini-2.0-flash-001"
         "local_workday" true = Py.PDict d
       /\ Py.items_get d "followups" = Some (Py.PList followups)
       /\ length followups = 3.
Proof.
  split; [done|]. split.
  - apply (list_elem_of_lookup_2 _ 3). reflexivity.
  - do 2 eexists. by vm_compute.
Qed.

(** * Further properties of the code *)

(** ** The base identifier *)

Section ReplacePrefix.

Import Py.

Variables (a : ascii) (old' new : string).

Let old : string := String a old'.

Lemma prefix_append (p x : string) : String.prefix p (p +:+ x) = true.
Proof.
  induction p as [|c p IH]; [by destruct x|].
  change (String c p +:+ x) with (String c (p +:+ x)).
  cbn [String.prefix]. by destruct (ascii_dec c c).
Qed.

Lemma replace_from_skip (p x : string) :
  replace_from (String.length p) old new (p +:+ x) = replace_from 0 old new x.
Proof. induction p as [|c p IH]; [done|]. exact IH. Qed.

Lemma replace_from_prefix (x : string) :
  replace_from 0 old new (old +:+ x) = new +:+ replace_from 0 old new x.
Proof.
  change (old +:+ x) with (String a (old' +:+ x)).
  cbn [replace_from].
  change (String a (old' +:+ x)) with (old +:+ x).
  rewrite prefix_append. f_equal.
  change (String.length old - 1) with (String.length old' - 0).
  rewrite Nat.sub_0_r. apply replace_from_skip.
Qed.

End ReplacePrefix.

Lemma get_bq_source_id_local (base : string) :
  ModelsConfig.get_bq_source_id ("local_" +:+ base)
  = ModelsConfig.get_bq_source_id base.
Proof.
  unfold ModelsConfig.get_bq_source_id, Py.replace.
  apply (replace_from_prefix "l" "ocal_" EmptyString).
Qed.

(** X1: the offline variant of an identifier and the identifier itself
    have the same base identifier, and that base is the identifier
    whenever [local_] does not occur in it. *)
Theorem get_bq_source_id_pairs (base : string) :
  ModelsConfig.get_bq_source_id ("local_" +:+ base)
  = ModelsConfig.get_bq_source_id base
  /\ (Py.contains "local_" base = false ->
      ModelsConfig.get_bq_source_id ("local_" +:+ base) = base).
Proof.
  split; [apply get_bq_source_id_local|].
  intros H. rewrite get_bq_source_id_local.
  by apply replace_from_clean.
Qed.

Lemma get_bq_source_id_pairs_witness :
  ModelsConfig.get_bq_source_id ("local_" +:+ "sap_hana") = "sap_hana".
Proof.
  apply (proj2 (get_bq_source_id_pairs "sap_hana")). reflexivity.
Defined.

(** X2: stripping changes an identifier exactly when [local_] occurs in
    it, and never makes it longer. *)
Theorem get_bq_source_id_changes_iff (s : string) :
  (ModelsConfig.get_bq_source_id s = s <-> Py.contains "local_" s = false)
  /\ String.length (ModelsConfig.get_bq_source_id s) <= String.length s.
Proof.
  unfold ModelsConfig.get_bq_source_id, Py.replace.
  split; [apply replace_from_fixed_iff | apply replace_from_length].
Qed.

(** X3: the offline prefix of a source identifier does not select the
    mode: with the same flag, the plan generator and the executor answer
    the prefixed identifier as they answer the bare one. *)
Theorem prefix_does_not_select_mode (W : Env.World) (sql : Py.pyval)
    (question model_id base : string) (is_local : bool) :
  Agent.run_agent W question model_id ("local_" +:+ base) is_local
  = Agent.run_agent W question model_id base is_local
  /\ BqClient.execute_sql W sql ("local_" +:+ base) question is_local
     = BqClient.execute_sql W sql base question is_local.
Proof.
  unfold Agent.run_agent, BqClient.execute_sql.
  pose proof (get_bq_source_id_local base) as H.
  unfold ModelsConfig.get_bq_source_id in H. by rewrite H.
Qed.

(** ** The two selectors of the sidebar *)

Section Selectors.

Import ModelsConfig.

Lemma find_model_by_id (mid : string) :
  match List.find (fun m => String.eqb (model_id m) mid) AVAILABLE_MODELS with
  | Some m => m ∈ AVAILABLE_MODELS /\ model_id m = mid
  | None => mid ∉ MODEL_IDS
  end.
Proof.
  destruct (List.find _ _) as [m|] eqn:H.
  - apply find_some in H as [Hin Heq].
    split; [by apply list_elem_of_In|by apply String.eqb_eq].
  - intros Hin. apply list_elem_of_fmap in Hin as (m & -> & Hm).
    apply list_elem_of_In in Hm. apply (find_none _ _ H) in Hm.
    by rewrite String.eqb_refl in Hm.
Qed.

(** X4: a known identifier selects the model that carries it; any other
    identifier selects the first model of the list, the one whose
    identifier is [DEFAULT_MODEL_ID]; the model returned is always one of
    the list. *)
Theorem get_model_by_id_total (mid : string) :
  get_model_by_id mid ∈ AVAILABLE_MODELS
  /\ (mid ∈ MODEL_IDS -> model_id (get_model_by_id mid) = mid)
  /\ (mid ∉ MODEL_IDS ->
      AVAILABLE_MODELS !! 0%nat = Some (get_model_by_id mid)
      /\ model_id (get_model_by_id mid) = DEFAULT_MODEL_ID).
Proof.
  unfold get_model_by_id. pose proof (find_model_by_id mid) as H.
  destruct (List.find _ _) as [m|]; cbn [default].
  - destruct H as [Hin Hid]. split; [done|]. split; [done|].
    intros Hn. exfalso. apply Hn. apply list_elem_of_fmap. by exists m.
  - split; [by apply (list_elem_of_lookup_2 _ 0%nat)|]. by split.
Qed.

Lemma get_model_by_id_total_witness :
  model_id (get_model_by_id "gemini-1.5-flash-002") = "gemini-1.5-flash-002"
  /\ model_id (get_model_by_id "gpt-4") = "gemini-2.0-flash-001".
Proof.
  split.
  - apply (proj1 (proj2 (get_model_by_id_total "gemini-1.5-flash-002"))).
    apply (bool_decide_unpack _). vm_compute. exact I.
  - apply (proj2 (proj2 (get_model_by_id_total "gpt-4"))).
    apply (bool_decide_unpack _). vm_compute. exact I.
Defined.

(** X5: the model selector round-trips: for every model of the list, the
    label resolves to the identifier of that model and the identifier
    resolves back to the model; a label that no model carries resolves to
    [DEFAULT_MODEL_ID]. *)
Theorem model_selector_round_trip (label : string) :
  (forall m, m ∈ AVAILABLE_MODELS -> model_label m = label ->
     get_model_id_by_label label = model_id m
     /\ get_model_by_id (get_model_id_by_label label) = m)
  /\ (label ∉ MODEL_LABELS -> get_model_id_by_label label = DEFAULT_MODEL_ID).
Proof.
  split.
  - intros m Hin <-. each_member Hin; subst m; by vm_compute.
  - intros Hn. unfold get_model_id_by_label.
    destruct (List.find _ _) as [m|] eqn:H; [|done].
    apply find_some in H as [Hin Heq]. apply String.eqb_eq in Heq.
    exfalso. apply Hn. apply list_elem_of_fmap. exists m.
    split; [done|by apply list_elem_of_In].
Qed.

Lemma model_selector_round_trip_witness :
  get_model_id_by_label "Gemini 1.5 Pro 🧠" = "gemini-1.5-pro-002"
  /\ get_model_id_by_label "Claude" = "gemini-2.0-flash-001".
Proof.
  split.
  - apply (proj1 (model_selector_round_trip "Gemini 1.5 Pro 🧠")
             {| model_id := "gemini-1.5-pro-002";
                model_label := "Gemini 1.5 Pro 🧠";
                model_description :=
                  "Most capable — best for complex multi-step reasoning";
                model_icon := "🧠" |}).
    + by apply (list_elem_of_lookup_2 _ 1%nat).
    + reflexivity.
  - apply (proj2 (model_selector_round_trip "Claude")).
    apply (bool_decide_unpack _). vm_compute. exact I.
Defined.

(** X6: the source selector round-trips: every source of the catalogue is
    found by its full label (icon, space, label) and by its bare label;
    whatever the label, the source returned is one of the catalogue, and it
    is the first one when no source carries the label. *)
Theorem get_source_by_label_round_trip (label : string) :
  (forall s, s ∈ DATA_SOURCES ->
     full_label s = label \/ src_label s = label ->
     get_source_by_label label = s)
  /\ get_source_by_label label ∈ DATA_SOURCES
  /\ (label ∉ SOURCE_LABELS -> label ∉ src_label <$> DATA_SOURCES ->
      DATA_SOURCES !! 0%nat = Some (get_source_by_label label)).
Proof.
  split; [|split].
  - intros s Hin [<-|<-]; each_member Hin; subst s; by vm_compute.
  - unfold get_source_by_label.
    destruct (List.find _ _) as [s|] eqn:H; cbn [default].
    + apply find_some in H as [Hin _]. by apply list_elem_of_In.
    + by apply (list_elem_of_lookup_2 _ 0%nat).
  - intros Hfull Hbare. unfold get_source_by_label.
    destruct (List.find _ _) as [s|] eqn:H; [|done].
    apply find_some in H as [Hin Heq]. apply list_elem_of_In in Hin.
    exfalso. apply orb_true_iff in Heq as [Heq|Heq]; apply String.eqb_eq in Heq.
    + apply Hfull. apply list_elem_of_fmap. by exists s.
    + apply Hbare. apply list_elem_of_fmap. by exists s.
Qed.

Lemma get_source_by_label_round_trip_witness :
  src_id (get_source_by_label "💾 Local · JIRA") = "local_jira"
  /\ src_id (get_source_by_label "SAP") = "salesforce".
Proof.
  split.
  - rewrite (proj1 (get_source_by_label_round_trip "💾 Local · JIRA")
               {| src_id := "local_jira"; src_label := "Local · JIRA";
                  src_icon := "💾";
                  src_description := "Demo Project data — no GCP needed";
                  src_color := "#6b7280"; src_local := true |}).
    + reflexivity.
    + by apply (list_elem_of_lookup_2 _ 10%nat).
    + by left.
  - pose proof (proj2 (proj2 (get_source_by_label_round_trip "SAP"))) as H.
    assert (H1 : "SAP" ∉ SOURCE_LABELS)
      by (apply (bool_decide_unpack _); vm_compute; exact I).
    assert (H2 : "SAP" ∉ src_label <$> DATA_SOURCES)
      by (apply (bool_decide_unpack _); vm_compute; exact I).
    specialize (H H1 H2). apply (inj Some).
    change (src_id <$> Some (get_source_by_label "SAP") = Some "salesforce").
    rewrite <- H. reflexivity.
Defined.

(** X7: the catalogue is coherent.  For every source, the local flag says
    whether the identifier starts with [local_]; the base identifier and
    its offline variant are both identifiers of the catalogue; and the base
    identifier is a key of the canned plans, of the fixtures and of the
    display names, so that no fallback to salesforce serves a source of
    the catalogue.  The identifiers are pairwise distinct. *)
Theorem data_sources_coherent (s : Source) :
  s ∈ DATA_SOURCES ->
  let base := get_bq_source_id (src_id s) in
  is_local_source s = String.prefix "local_" (src_id s)
  /\ base ∈ SOURCE_IDS
  /\ ("local_" +:+ base) ∈ SOURCE_IDS
  /\ is_Some (Agent.LOCAL_RESPONSES !! base)
  /\ is_Some (BqClient.MOCK_DATA !! base)
  /\ is_Some (Agent.SOURCE_NAMES !! base)
  /\ NoDup SOURCE_IDS.
Proof.
  intros Hin base. subst base.
  assert (Hnd : NoDup SOURCE_IDS)
    by (apply (bool_decide_unpack _); vm_compute; exact I).
  each_member Hin; subst s;
    (split; [reflexivity|]);
    (split; [apply (bool_decide_unpack _); vm_compute; exact I|]);
    (split; [apply (bool_decide_unpack _); vm_compute; exact I|]);
    (split; [by eexists|]); (split; [by eexists|]); (split; [by eexists|]);
    exact Hnd.
Qed.

Lemma data_sources_coherent_witness :
  "local_workday" ∈ SOURCE_IDS /\ is_Some (BqClient.MOCK_DATA !! "workday").
Proof.
  destruct (data_sources_coherent
              {| src_id := "workday"; src_label := "Workday"; src_icon := "👥";
                 src_description := "HCM — Employees, Payroll, Time Off, Headcount";
                 src_color := "#F5A623"; src_local := false |})
    as (_ & _ & Hl & _ & Hm & _).
  - by apply (list_elem_of_lookup_2 _ 3%nat).
  - split; [exact Hl | exact Hm].
Defined.

End Selectors.

(** ** The code fence around an answer *)

Section Fences.

Import Py Env.

Lemma append_assoc (a b c : string) : (a +:+ b) +:+ c = a +:+ (b +:+ c).
Proof.
  induction a as [|x a IH]; [done|].
  change (String x (a +:+ b) +:+ c = String x (a +:+ b +:+ c)).
  change (String x ((a +:+ b) +:+ c) = String x (a +:+ b +:+ c)).
  by rewrite IH.
Qed.

Lemma length_append (a b : string) :
  String.length (a +:+ b) = String.length a + String.length b.
Proof.
  induction a as [|x a IH]; [done|].
  change (S (String.length (a +:+ b)) = S (String.length a + String.length b)).
  by rewrite IH.
Qed.

Lemma list_ascii_of_append (a b : string) :
  String.list_ascii_of_string (a +:+ b)
  = String.list_ascii_of_string a ++ String.list_ascii_of_string b.
Proof.
  induction a as [|x a IH]; [done|].
  change (x :: String.list_ascii_of_string (a +:+ b)
          = x :: (String.list_ascii_of_string a ++ String.list_ascii_of_string b)).
  by rewrite IH.
Qed.

Lemma drop_prefix_append (p x : string) : drop_prefix p (p +:+ x) = Some x.
Proof.
  induction p as [|c p IH]; [by destruct x|].
  change (String c p +:+ x) with (String c (p +:+ x)).
  cbn [drop_prefix]. by rewrite Ascii.eqb_refl.
Qed.

Lemma drop_suffix_append (p s : string) : drop_suffix p (s +:+ p) = Some s.
Proof.
  induction s as [|c s IH].
  - change (EmptyString +:+ p) with p.
    destruct p; cbn [drop_suffix]; by rewrite String.eqb_refl.
  - change (String c s +:+ p) with (String c (s +:+ p)).
    assert (Hne : String.eqb p (String c (s +:+ p)) = false).
    { apply String.eqb_neq. intros Heq. apply (f_equal String.length) in Heq.
      cbn in Heq. rewrite length_append in Heq. lia. }
    cbn [drop_suffix]. rewrite Hne. by rewrite IH.
Qed.

Lemma drop_suffix_Some (p s r : string) :
  drop_suffix p s = Some r -> s = r +:+ p.
Proof.
  revert r. induction s as [|c s IH]; intros r.
  - destruct p; cbn; [by intros [= <-]|done].
  - destruct p as [|x p].
    + cbn. destruct (drop_suffix EmptyString s) as [r'|] eqn:H; [|done].
      intros [= <-]. by rewrite (IH r' eq_refl).
    + cbn [drop_suffix].
      destruct (String.eqb_spec (String x p) (String c s)) as [->|_];
        [by intros [= <-]|].
      destruct (drop_suffix (String x p) s) as [r'|] eqn:H; [|done].
      intros [= <-]. by rewrite (IH r' eq_refl).
Qed.

Lemma rstrip_snoc_space (s : string) (c : ascii) :
  isspace c = true -> rstrip (s +:+ String c EmptyString) = rstrip s.
Proof.
  intros Hc. induction s as [|x s IH];
    [by rewrite append_empty_l; cbn; rewrite Hc|].
  change (String x s +:+ String c EmptyString)
    with (String x (s +:+ String c EmptyString)).
  cbn [rstrip]. by rewrite IH.
Qed.

Lemma rstrip_snoc_other (s : string) (c : ascii) :
  isspace c = false ->
  rstrip (s +:+ String c EmptyString) = s +:+ String c EmptyString.
Proof.
  intros Hc. induction s as [|x s IH];
    [by rewrite append_empty_l; cbn; rewrite Hc|].
  change (String x s +:+ String c EmptyString)
    with (String x (s +:+ String c EmptyString)).
  cbn [rstrip]. rewrite IH. by destruct s.
Qed.

(** A JSON object as the backend writes it. *)
Let object (body : string) : string := "{" +:+ body +:+ "}".

Lemma object_ends (body : string) :
  last (String.list_ascii_of_string (object body)) = Some "}"%char.
Proof.
  unfold object. rewrite !list_ascii_of_append. cbn [String.list_ascii_of_string].
  rewrite app_assoc. apply last_snoc.
Qed.

Lemma strip_object (body : string) : strip (object body) = object body.
Proof.
  unfold strip, object.
  change (lstrip ("{" +:+ body +:+ "}")) with ("{" +:+ body +:+ "}").
  rewrite <- append_assoc. by apply rstrip_snoc_other.
Qed.

Lemma object_not_fenced (body : string) :
  Agent.strip_fence_close (Agent.strip_fence_open (object body)) = object body.
Proof.
  unfold Agent.strip_fence_open.
  change (drop_prefix "```" (object body)) with (@None string).
  unfold Agent.strip_fence_close.
  destruct (drop_suffix "```" (object body)) as [r|] eqn:H; [|done].
  apply drop_suffix_Some in H. pose proof (object_ends body) as He.
  rewrite H, list_ascii_of_append, last_app in He. by cbn in He.
Qed.

Lemma fenced_object (lang body : string) :
  lang = EmptyString \/ lang = "json" ->
  Agent.strip_fence_close
    (Agent.strip_fence_open
       (strip ("```" +:+ lang +:+ LF +:+ object body +:+ LF +:+ "```")))
  = object body.
Proof.
  intros Hlang.
  assert (Hstrip : strip ("```" +:+ lang +:+ LF +:+ object body +:+ LF +:+ "```")
                   = "```" +:+ lang +:+ LF +:+ object body +:+ LF +:+ "```").
  { unfold strip.
    change (lstrip ("```" +:+ ?x)) with ("```" +:+ x).
    replace ("```" +:+ lang +:+ LF +:+ object body +:+ LF +:+ "```")
      with (("```" +:+ lang +:+ LF +:+ object body +:+ LF +:+ "``")
              +:+ String "`" EmptyString)
      by (rewrite !append_assoc; reflexivity).
    by apply rstrip_snoc_other. }
  rewrite Hstrip. unfold Agent.strip_fence_open.
  rewrite drop_prefix_append. cbn [default].
  assert (Hopen : lstrip (default (lang +:+ LF +:+ object body +:+ LF +:+ "```")
                            (drop_prefix "json"
                               (lang +:+ LF +:+ object body +:+ LF +:+ "```")))
                  = object body +:+ LF +:+ "```").
  { destruct Hlang as [->| ->].
    - reflexivity.
    - rewrite drop_prefix_append. reflexivity. }
  rewrite Hopen. unfold Agent.strip_fence_close.
  rewrite <- append_assoc, drop_suffix_append.
  unfold LF. rewrite rstrip_snoc_space by done.
  pose proof (strip_object body) as Ho. unfold strip in Ho.
  by change (lstrip (object body)) with (object body) in Ho.
Qed.

Variable W : World.
Variables question model_id base : string.

Hypothesis import_ok : import_vertexai W = Ok ().
Hypothesis init_ok : vertexai_init W (GCP_PROJECT_ID W) (GCP_LOCATION W) = Ok ().

(** X8: when the libraries load, an answer that is a JSON object wrapped
    in a code fence, with or without the word [json], is parsed exactly as
    the bare object is: the plan is what [json.loads] makes of the text
    between the braces, braces included. *)
Theorem fenced_answer_parsed (lang body text : string) :
  text = "{" +:+ body +:+ "}"
  \/ text = "```" +:+ lang +:+ LF +:+ ("{" +:+ body +:+ "}") +:+ LF +:+ "```"
     /\ (lang = EmptyString \/ lang = "json") ->
  (forall system,
      generate_content W model_id system ("Business question: " +:+ question)
      = Ok text) ->
  Agent.vertex_plan W question model_id base
  = json_loads W ("{" +:+ body +:+ "}").
Proof.
  intros Htext Hgen. unfold Agent.vertex_plan.
  rewrite import_ok. cbn [mbind exc_bind bind]. rewrite init_ok.
  cbn [mbind exc_bind bind]. rewrite Hgen. cbn [mbind exc_bind bind].
  f_equal. destruct Htext as [->|[-> Hlang]].
  - fold (object body). rewrite strip_object. apply object_not_fenced.
  - by apply (fenced_object lang body).
Qed.

End Fences.

Lemma fenced_answer_parsed_witness :
  Agent.vertex_plan
    (Examples.world
       (Py.Ok ("```" +:+ "json" +:+ Py.LF +:+ ("{" +:+ EmptyString +:+ "}")
               +:+ Py.LF +:+ "```"))
       (Py.Ok Pandas.DataFrame_new))
    "Anything?" "gemini-2.0-flash-001" "jira"
  = Py.Ok (Py.PDict []).
Proof.
  rewrite (fenced_answer_parsed
             (Examples.world
                (Py.Ok ("```" +:+ "json" +:+ Py.LF +:+ ("{" +:+ EmptyString +:+ "}")
                        +:+ Py.LF +:+ "```"))
                (Py.Ok Pandas.DataFrame_new))
             "Anything?" "gemini-2.0-flash-001" "jira" eq_refl eq_refl
             "json" EmptyString
             ("```" +:+ "json" +:+ Py.LF +:+ ("{" +:+ EmptyString +:+ "}")
              +:+ Py.LF +:+ "```")).
  - reflexivity.
  - right. split; [reflexivity|by right].
  - reflexivity.
Defined.

(** ** The offline turn *)

Ltac in_list :=
  first [apply list_elem_of_here | apply list_elem_of_further; in_list].

Section OfflineTurn.

Import Py Env.

(** The canned plans and the fixtures have the same keys. *)
Lemma catalogue_cases (base : string) :
  (Agent.LOCAL_RESPONSES !! base, BqClient.MOCK_DATA !! base)
  ∈ [(Some Agent.salesforce_response, Some BqClient.salesforce_mock);
     (Some Agent.netsuite_response, Some BqClient.netsuite_mock);
     (Some Agent.coupa_response, Some BqClient.coupa_mock);
     (Some Agent.workday_response, Some BqClient.workday_mock);
     (Some Agent.jira_response, Some BqClient.jira_mock);
     (Some Agent.inhouse_response, Some BqClient.inhouse_mock);
     (None, None)].
Proof.
  unfold Agent.LOCAL_RESPONSES, BqClient.MOCK_DATA.
  destruct (decide ("salesforce" = base)) as [<-|?];
    [by apply (list_elem_of_lookup_2 _ 0%nat)|].
  destruct (decide ("netsuite" = base)) as [<-|?];
    [by apply (list_elem_of_lookup_2 _ 1%nat)|].
  destruct (decide ("coupa" = base)) as [<-|?];
    [by apply (list_elem_of_lookup_2 _ 2%nat)|].
  destruct (decide ("workday" = base)) as [<-|?];
    [by apply (list_elem_of_lookup_2 _ 3%nat)|].
  destruct (decide ("jira" = base)) as [<-|?];
    [by apply (list_elem_of_lookup_2 _ 4%nat)|].
  destruct (decide ("inhouse" = base)) as [<-|?];
    [by apply (list_elem_of_lookup_2 _ 5%nat)|].
  rewrite !lookup_insert_ne, !lookup_empty by done.
  by apply (list_elem_of_lookup_2 _ 6%nat).
Qed.

(** The offline plan and the offline table of one source identifier. *)
Lemma offline_pair (W : World) (sql : pyval) (question model_id source_id : string) :
  (Agent.run_agent W question model_id source_id true,
   BqClient.execute_sql W sql source_id question true)
  ∈ [(Agent.salesforce_response, (BqClient.salesforce_mock, None));
     (Agent.netsuite_response, (BqClient.netsuite_mock, None));
     (Agent.coupa_response, (BqClient.coupa_mock, None));
     (Agent.workday_response, (BqClient.workday_mock, None));
     (Agent.jira_response, (BqClient.jira_mock, None));
     (Agent.inhouse_response, (BqClient.inhouse_mock, None))].
Proof.
  unfold Agent.run_agent, BqClient.execute_sql, BqClient.get_mock_df.
  generalize (replace "local_" EmptyString source_id). intros base.
  pose proof (catalogue_cases base) as H.
  repeat (apply elem_of_cons in H as [E|H];
          [injection E as -> ->; cbn [default]; in_list|]).
  by apply elem_of_nil in H.
Qed.

End OfflineTurn.

Section TurnShape.

Import Py Env.

Variable W : World.
Variable st : App.SessionState.
Variables question model_id : string.
Variable source : ModelsConfig.Source.

(** The turn of a plan that is a dict with a string for explanation. *)
Lemma run_query_string_explanation (d : list (string * pyval))
    (explanation : string) (df : Pandas.DataFrame) (err : option string) :
  Agent.run_agent W question model_id (ModelsConfig.src_id source)
    (ModelsConfig.is_local_source source) = PDict d ->
  default (PStr EmptyString) (items_get d "explanation") = PStr explanation ->
  BqClient.execute_sql W (default (PStr EmptyString) (items_get d "sql"))
    (ModelsConfig.src_id source) question (ModelsConfig.is_local_source source)
  = (df, err) ->
  App.run_query W st question model_id source
  = ({| App.messages :=
          App.messages st
          ++ [{| App.role := "user"; App.content := PStr question;
                 App.model := None |};
              {| App.role := "ai";
                 App.content :=
                   match err with
                   | Some (String a e) =>
                       PStr (explanation +:+ App.query_error (String a e))
                   | _ => PStr explanation
                   end;
                 App.model :=
                   Some (if ModelsConfig.is_local_source source
                         then "Local Demo"
                         else ModelsConfig.model_label
                                (ModelsConfig.get_model_by_id model_id)) |}];
        App.last_df := match err with None => Some df | Some _ => None end;
        App.last_result := Some (PDict d);
        App.selected_followup := App.selected_followup st;
        App.pending_followup := App.pending_followup st;
        App.email_status := App.email_status st |}, None).
Proof.
  intros Hplan Hexpl Hexec. unfold App.run_query.
  rewrite Hplan. cbn [py_get]. rewrite Hexec, Hexpl.
  by destruct err as [[|a e]|].
Qed.

End TurnShape.

Section OfflineRun.

Import Py Env.

Variable W : World.
Variable st : App.SessionState.
Variables question model_id : string.

(** X9: a turn on a source flagged local always succeeds, whatever the
    identifier, the question, the model and the environment: no exception
    escapes, the log gets the question and the explanation of the plan as
    it is, signed [Local Demo], [last_result] is the plan and [last_df] is
    the fixture, which is not empty. *)
Theorem run_query_offline (source : ModelsConfig.Source) :
  ModelsConfig.is_local_source source = true ->
  exists d explanation df,
    Agent.run_agent W question model_id (ModelsConfig.src_id source) true = PDict d
    /\ items_get d "explanation" = Some (PStr explanation)
    /\ df = BqClient.get_mock_df
              (ModelsConfig.get_bq_source_id (ModelsConfig.src_id source))
    /\ Pandas.empty df = false
    /\ App.run_query W st question model_id source
       = ({| App.messages :=
               App.messages st
               ++ [{| App.role := "user"; App.content := PStr question;
                      App.model := None |};
                   {| App.role := "ai"; App.content := PStr explanation;
                      App.model := Some "Local Demo" |}];
             App.last_df := Some df;
             App.last_result := Some (PDict d);
             App.selected_followup := App.selected_followup st;
             App.pending_followup := App.pending_followup st;
             App.email_status := App.email_status st |}, None).
Proof.
  intros Hlocal.
  pose proof (offline_pair W PNone question model_id (ModelsConfig.src_id source))
    as H.
  assert (Hturn :
    forall d explanation,
      Agent.run_agent W question model_id (ModelsConfig.src_id source) true
      = PDict d ->
      default (PStr EmptyString) (items_get d "explanation") = PStr explanation ->
      App.run_query W st question model_id source
      = ({| App.messages :=
              App.messages st
              ++ [{| App.role := "user"; App.content := PStr question;
                     App.model := None |};
                  {| App.role := "ai"; App.content := PStr explanation;
                     App.model := Some "Local Demo" |}];
            App.last_df :=
              Some (BqClient.get_mock_df
                      (ModelsConfig.get_bq_source_id (ModelsConfig.src_id source)));
            App.last_result := Some (PDict d);
            App.selected_followup := App.selected_followup st;
            App.pending_followup := App.pending_followup st;
            App.email_status := App.email_status st |}, None)).
  { intros d explanation Hd He.
    rewrite (run_query_string_explanation W st question model_id source d
               explanation
               (BqClient.get_mock_df
                  (ModelsConfig.get_bq_source_id (ModelsConfig.src_id source)))
               None); rewrite ?Hlocal; done. }
  exists (match Agent.run_agent W question model_id (ModelsConfig.src_id source) true
          with PDict d => d | _ => [] end).
  pose proof (get_mock_df_not_empty
                (ModelsConfig.get_bq_source_id (ModelsConfig.src_id source)))
    as Hne.
  repeat (apply elem_of_cons in H as [E|H];
          [apply pair_equal_spec in E as [Hp _]; rewrite Hp in Hturn |- *;
           eexists; eexists;
           split; [reflexivity|]; split; [reflexivity|];
           split; [reflexivity|]; split; [exact Hne|];
           by apply Hturn|]).
  by apply elem_of_nil in H.
Qed.

(** X10: in an offline turn the chart builder never falls back.  For
    every source identifier, the axes that the plan names are columns of
    the fixture that the executor returns, the y axis is numeric and
    differs from the x axis, and the figure is a bar chart over exactly
    those two columns. *)
Theorem offline_chart_axes (sql : pyval) (source_id : string) :
  exists d x_col y_col df,
    Agent.run_agent W question model_id source_id true = PDict d
    /\ BqClient.execute_sql W sql source_id question true = (df, None)
    /\ py_get (PDict d) "x_col" (PStr EmptyString) = Ok (PStr x_col)
    /\ py_get (PDict d) "y_col" (PStr EmptyString) = Ok (PStr y_col)
    /\ x_col <> y_col
    /\ y_col ∈ Pandas.columns (Pandas.select_dtypes_number df)
    /\ App.build_chart (Some df)
         (default (PStr "bar") (items_get d "chart_type"))
         (PStr x_col) (PStr y_col)
       = Some {| Plot.kind := Plot.Bar; Plot.x := x_col; Plot.y := y_col;
                 Plot.data := df |}.
Proof.
  pose proof (offline_pair W sql question model_id source_id) as H.
  repeat (apply elem_of_cons in H as [E|H];
          [apply pair_equal_spec in E as [-> ->]; do 4 eexists;
           do 4 (split; [reflexivity|]);
           split; [discriminate|];
           split; [apply (bool_decide_unpack _); vm_compute; exact I|];
           reflexivity|]).
  by apply elem_of_nil in H.
Qed.

End OfflineRun.

Lemma run_query_offline_witness :
  exists st',
    App.run_query Examples.bare_world App.initial_state "Headcount?"
      "gemini-2.0-flash-001" Examples.local_salesforce = (st', None)
    /\ App.last_df st' = Some BqClient.salesforce_mock.
Proof.
  destruct (run_query_offline Examples.bare_world App.initial_state "Headcount?"
              "gemini-2.0-flash-001" Examples.local_salesforce eq_refl)
    as (d & explanation & df & _ & _ & -> & _ & Hrun).
  eexists. split; [exact Hrun|]. reflexivity.
Defined.

(** ** What a turn can do to the session *)

Section TurnOutcomes.

Import Py Env.

Variable W : World.
Variable st : App.SessionState.
Variables question model_id : string.
Variable source : ModelsConfig.Source.

Let plan : pyval :=
  Agent.run_agent W question model_id (ModelsConfig.src_id source)
    (ModelsConfig.is_local_source source).

Let user : App.Message :=
  {| App.role := "user"; App.content := PStr question; App.model := None |}.

(** Once the plan is a dict, the two entries are in the log, whatever
    happens next. *)
Lemma run_query_dict_log (d : list (string * pyval)) :
  plan = PDict d ->
  exists content label escaped,
    (App.run_query W st question model_id source).2 = escaped
    /\ (escaped = None \/ exists e, escaped = Some e /\ exn_cls e = TypeError)
    /\ App.messages (App.run_query W st question model_id source).1
       = App.messages st
         ++ [user; {| App.role := "ai"; App.content := content;
                      App.model := Some label |}]
    /\ App.selected_followup (App.run_query W st question model_id source).1
       = App.selected_followup st
    /\ App.pending_followup (App.run_query W st question model_id source).1
       = App.pending_followup st
    /\ App.email_status (App.run_query W st question model_id source).1
       = App.email_status st.
Proof.
  intros Hplan. unfold App.run_query. fold plan. rewrite Hplan. cbn [py_get].
  destruct (BqClient.execute_sql _ _ _ _ _) as [df [[|a err]|]].
  - do 3 eexists. split; [reflexivity|]. split; [by left|]. done.
  - destruct (App.iadd_str _ _) as [c|ex] eqn:Hadd.
    + do 3 eexists. split; [reflexivity|]. split; [by left|]. done.
    + do 3 eexists. split; [reflexivity|]. split; [|done].
      right. exists ex. split; [done|].
      unfold App.iadd_str in Hadd. by repeat case_match; simplify_eq.
  - do 3 eexists. split; [reflexivity|]. split; [by left|]. done.
Qed.

(** X11: the only exceptions that leave [run_query] are the
    [AttributeError] of a plan that is not a dict, which leaves the whole
    session state as it was, and the [TypeError] of an explanation to
    which the warning cannot be added, which leaves the two entries in the
    log.  When nothing escapes the plan was a dict.  In every case the
    log keeps its earlier entries and the slots for the follow-up and
    the e-mail status are untouched. *)
Theorem run_query_outcomes :
  let st' := (App.run_query W st question model_id source).1 in
  App.selected_followup st' = App.selected_followup st
  /\ App.pending_followup st' = App.pending_followup st
  /\ App.email_status st' = App.email_status st
  /\ match (App.run_query W st question model_id source).2 with
     | None =>
         (exists d, plan = PDict d)
         /\ exists content label,
              App.messages st'
              = App.messages st
                ++ [user; {| App.role := "ai"; App.content := content;
                             App.model := Some label |}]
     | Some e =>
         (exn_cls e = AttributeError /\ (forall d, plan <> PDict d) /\ st' = st)
         \/ (exn_cls e = TypeError /\ (exists d, plan = PDict d)
             /\ exists content label,
                  App.messages st'
                  = App.messages st
                    ++ [user; {| App.role := "ai"; App.content := content;
                                 App.model := Some label |}])
     end.
Proof.
  destruct plan as [| | | | | |d] eqn:Hplan;
    [unfold App.run_query; fold plan; rewrite Hplan; cbn;
     do 3 (split; [done|]); left; by repeat split ..|].
  destruct (run_query_dict_log d Hplan)
    as (content & label & escaped & -> & Hesc & Hlog & H1 & H2 & H3).
  cbn zeta. do 3 (split; [done|]).
  destruct Hesc as [->|(e & -> & He)].
  - split; [by exists d|by exists content, label].
  - right. split; [done|]. split; [by exists d|by exists content, label].
Qed.

End TurnOutcomes.

(** ** A turn whose plan could not be generated *)

Section GenerationFailure.

Import Py Env.

Variable W : World.
Variable st : App.SessionState.
Variables question model_id : string.
Variable source : ModelsConfig.Source.

(** X12: when the plan of a live source cannot be generated, the turn
    still runs to its end.  The placeholder comment is sent to the
    warehouse as the query; the log gets the question and the diagnostic
    of the generation, followed by the warning of the execution when that
    one fails with a non-empty text; no exception escapes. *)
Theorem run_query_generation_failure (e : py_exn) :
  ModelsConfig.is_local_source source = false ->
  Agent.vertex_plan W question model_id
    (ModelsConfig.get_bq_source_id (ModelsConfig.src_id source)) = Raise e ->
  let executed :=
    BqClient.execute_sql W (PStr "-- Error generating SQL")
      (ModelsConfig.src_id source) question false in
  let diagnostic := "⚠️ Vertex AI error: " +:+ exn_str e in
  exists st',
    App.run_query W st question model_id source = (st', None)
    /\ App.messages st'
       = App.messages st
         ++ [{| App.role := "user"; App.content := PStr question;
                App.model := None |};
             {| App.role := "ai";
                App.content :=
                  match executed.2 with
                  | Some (String a err) =>
                      PStr (diagnostic +:+ LF +:+ LF +:+ "⚠️ Query error: "
                            +:+ String a err)
                  | _ => PStr diagnostic
                  end;
                App.model :=
                  Some (ModelsConfig.model_label
                          (ModelsConfig.get_model_by_id model_id)) |}]
    /\ App.last_df st'
       = match executed.2 with None => Some executed.1 | Some _ => None end
    /\ App.last_result st'
       = Some (Agent.run_agent W question model_id (ModelsConfig.src_id source)
                 false).
Proof.
  intros Hlive Hraise executed diagnostic.
  assert (Hplan :
    Agent.run_agent W question model_id (ModelsConfig.src_id source)
      (ModelsConfig.is_local_source source) = Agent.error_plan e).
  { rewrite Hlive. unfold Agent.run_agent, Agent._call_vertex_ai.
    unfold ModelsConfig.get_bq_source_id in Hraise. by rewrite Hraise. }
  eexists. split.
  - apply (run_query_string_explanation W st question model_id source _
             diagnostic executed.1 executed.2 Hplan); [reflexivity|].
    rewrite Hlive. change (executed = (executed.1, executed.2)).
    apply surjective_pairing.
  - cbn [App.messages App.last_df App.last_result]. rewrite Hlive.
    split; [done|]. split; [done|]. by rewrite Hlive in Hplan; rewrite Hplan.
Qed.

End GenerationFailure.

Lemma run_query_generation_failure_witness :
  exists st',
    App.run_query Examples.bare_world App.initial_state "Top deals?"
      "gemini-2.0-flash-001" Examples.salesforce = (st', None)
    /\ App.last_df st' = None.
Proof.
  destruct (run_query_generation_failure Examples.bare_world App.initial_state
              "Top deals?" "gemini-2.0-flash-001" Examples.salesforce
              (Py.Exn Py.ImportError "No module named 'vertexai'")
              eq_refl eq_refl)
    as (st' & Hrun & _ & Hdf & _).
  exists st'. split; [exact Hrun|exact Hdf].
Defined.

(** ** The question that a report carries *)

Section LastQuestion.

Import Py Env.

Lemma last_q_after_turn (log : list App.Message) (question : string)
    (content : pyval) (label : string) :
  App.last_q
    (log ++ [{| App.role := "user"; App.content := PStr question;
                App.model := None |};
             {| App.role := "ai"; App.content := content;
                App.model := Some label |}])
  = PStr question.
Proof. unfold App.last_q. by rewrite rev_app_distr. Qed.

(** X13: after a turn whose plan is a dict, the scan that the report and
    the e-mail use to find the last question finds the question of that
    turn, whatever the log held before and even when the warning could not
    be added. *)
Theorem last_q_is_current_question (W : World) (st : App.SessionState)
    (question model_id : string) (source : ModelsConfig.Source)
    (d : list (string * pyval)) :
  Agent.run_agent W question model_id (ModelsConfig.src_id source)
    (ModelsConfig.is_local_source source) = PDict d ->
  App.last_q (App.messages (App.run_query W st question model_id source).1)
  = PStr question.
Proof.
  intros Hplan.
  destruct (run_query_dict_log W st question model_id source d Hplan)
    as (content & label & _ & _ & _ & -> & _).
  apply last_q_after_turn.
Qed.

End LastQuestion.

Lemma last_q_is_current_question_witness :
  App.last_q
    (App.messages
       (App.run_query Examples.bare_world App.initial_state "Open issues?"
          "gemini-2.0-flash-001" Examples.local_salesforce).1)
  = Py.PStr "Open issues?".
Proof.
  apply (last_q_is_current_question Examples.bare_world App.initial_state
           "Open issues?" "gemini-2.0-flash-001" Examples.local_salesforce
           [("sql", Py.PStr
               ("SELECT stage, COUNT(*) AS deal_count, SUM(amount) AS total_value"
                +:+ Py.LF +:+ "FROM `erp_poc.sf_opportunities`"
                +:+ Py.LF +:+ "GROUP BY stage ORDER BY total_value DESC"));
            ("explanation", Py.PStr
               "I analysed the Salesforce opportunity pipeline. **Closed Won** leads at $3.2M across 22 deals, while **Proposal** stage has $2.1M indicating a strong pipeline. The **Closed Lost** rate is relatively low, suggesting effective qualification.");
            ("chart_type", Py.PStr "bar"); ("x_col", Py.PStr "stage");
            ("y_col", Py.PStr "total_value");
            ("followups", Py.PList [
               Py.PStr "What is the average deal size by region?";
               Py.PStr "Show win rate trend over last 6 months";
               Py.PStr "Which sales rep has the highest close rate?"])]).
  reflexivity.
Defined.

(** ** The axes that reach plotly *)

Section ChartInvariant.

Import Py.

Lemma numeric_is_column (df : Pandas.DataFrame) (n : string) :
  n ∈ Pandas.columns (Pandas.select_dtypes_number df) -> n ∈ Pandas.columns df.
Proof.
  intros H. apply select_dtypes_number_columns in H as (c & Hc & _).
  apply list_elem_of_fmap. by exists (n, c).
Qed.

Lemma head_elem {A : Type} (l : list A) (x : A) : head l = Some x -> x ∈ l.
Proof. destruct l; [done|]. intros [= ->]. by left. Qed.

Lemma last_elem {A : Type} (l : list A) (x : A) : last l = Some x -> x ∈ l.
Proof.
  intros H. apply last_Some in H as [l' ->].
  apply elem_of_app. right. by left.
Qed.

(** X14: whatever the three hints are (strings or not), a figure that
    [build_chart] returns is drawn on the table it was given, and both of
    its axes are columns of that table. *)
Theorem build_chart_axes_are_columns (df : Pandas.DataFrame)
    (chart_type x_col y_col : pyval) (call : Plot.Call) :
  App.build_chart (Some df) chart_type x_col y_col = Some call ->
  Plot.data call = df
  /\ Plot.x call ∈ Pandas.columns df
  /\ Plot.y call ∈ Pandas.columns df.
Proof.
  unfold App.build_chart.
  destruct (Pandas.empty df) eqn:Hne; [done|].
  destruct (not_empty_columns df Hne) as (c0 & cl & Hc0 & Hcl).
  rewrite Hc0, Hcl. cbn [default]. intros [= <-]. cbn [Plot.data Plot.x Plot.y].
  split; [done|].
  assert (Hfb : default cl (head (Pandas.columns (Pandas.select_dtypes_number df)))
                ∈ Pandas.columns df).
  { destruct (head (Pandas.columns (Pandas.select_dtypes_number df)))
      as [n|] eqn:Hn; cbn [default].
    - by apply numeric_is_column, head_elem.
    - by apply last_elem. }
  apply head_elem in Hc0. split.
  - destruct x_col; try done. case_bool_decide; done.
  - destruct y_col; try done.
    destruct (negb _ || _) eqn:Hb; [done|].
    apply orb_false_iff in Hb as [Hb _]. apply negb_false_iff in Hb.
    by apply bool_decide_eq_true in Hb.
Qed.

(** X15: the fallback of the y axis does not look at the x axis.  When
    the column asked for x is the first numeric column and the column
    asked for y is that same column, the figure has that column on both
    axes. *)
Theorem build_chart_same_axis (df : Pandas.DataFrame) (chart_type : pyval)
    (col : string) :
  Pandas.empty df = false ->
  head (Pandas.columns (Pandas.select_dtypes_number df)) = Some col ->
  exists call,
    App.build_chart (Some df) chart_type (PStr col) (PStr col) = Some call
    /\ Plot.x call = col /\ Plot.y call = col.
Proof.
  intros Hne Hhead. unfold App.build_chart. rewrite Hne, Hhead.
  eexists. split; [reflexivity|]. cbn [Plot.x Plot.y default].
  assert (Hin : col ∈ Pandas.columns df)
    by by apply numeric_is_column, head_elem.
  rewrite (bool_decide_eq_true_2 _ Hin). split; [done|].
  by rewrite String.eqb_refl, orb_true_r.
Qed.

End ChartInvariant.

Lemma build_chart_axes_are_columns_witness :
  "avg_velocity" ∈ Pandas.columns BqClient.jira_mock.
Proof.
  apply (build_chart_axes_are_columns BqClient.jira_mock (Py.PStr "line")
           Py.PNone (Py.PStr "avg_velocity")
           {| Plot.kind := Plot.Line; Plot.x := "project";
              Plot.y := "avg_velocity"; Plot.data := BqClient.jira_mock |}).
  reflexivity.
Defined.

Lemma build_chart_same_axis_witness :
  exists call,
    App.build_chart (Some BqClient.coupa_mock) (Py.PStr "bar")
      (Py.PStr "po_count") (Py.PStr "po_count") = Some call
    /\ Plot.x call = "po_count" /\ Plot.y call = "po_count".
Proof.
  apply (build_chart_same_axis BqClient.coupa_mock (Py.PStr "bar") "po_count");
    reflexivity.
Defined.

(** ** An import error after the import *)

Section LateImportError.

Import Py Env.

Variable W : World.
Variable sql : pyval.
Variables source_id question : string.

(** X16: the message about the missing package does not tell where the
    [ImportError] came from.  When the client library imports and the
    [ImportError] is raised later, by the construction of the client or by
    the query itself, the live execution still answers that
    google-cloud-bigquery is not installed, and the text of the exception
    is lost. *)
Theorem execute_sql_late_import_error (e : py_exn) :
  import_bigquery W = Ok () ->
  bigquery_Client W (GCP_PROJECT_ID W) = Raise e
  \/ (bigquery_Client W (GCP_PROJECT_ID W) = Ok ()
      /\ bigquery_query W sql = Raise e) ->
  exn_cls e = ImportError ->
  BqClient.execute_sql W sql source_id question false
  = (Pandas.DataFrame_new,
     Some "google-cloud-bigquery not installed. Run: pip install google-cloud-bigquery").
Proof.
  intros Hi Hstep He. unfold BqClient.execute_sql, BqClient.live_query.
  rewrite Hi. cbn [mbind exc_bind bind].
  destruct Hstep as [Hc|[Hc Hq]].
  - rewrite Hc. cbn [mbind exc_bind bind]. by rewrite He.
  - rewrite Hc. cbn [mbind exc_bind bind]. rewrite Hq. by rewrite He.
Qed.

End LateImportError.

Lemma execute_sql_late_import_error_witness :
  BqClient.execute_sql
    (Examples.world (Py.Ok Examples.fenced_plan)
       (Py.Raise (Py.Exn Py.ImportError "No module named 'db_dtypes'")))
    (Py.PStr "SELECT 1") "workday" "How many?" false
  = (Pandas.DataFrame_new,
     Some "google-cloud-bigquery not installed. Run: pip install google-cloud-bigquery").
Proof.
  apply (execute_sql_late_import_error
           (Examples.world (Py.Ok Examples.fenced_plan)
              (Py.Raise (Py.Exn Py.ImportError "No module named 'db_dtypes'")))
           (Py.PStr "SELECT 1") "workday" "How many?"
           (Py.Exn Py.ImportError "No module named 'db_dtypes'")).
  - reflexivity.
  - right. split; reflexivity.
  - reflexivity.
Defined.

(** ** The schema text *)

Section SchemaText.

Import Py Env.

Lemma schema_lookup (p d base : string) :
  let schemas : gmap string string :=
    <["salesforce" := BqClient.salesforce_schema p d]> (
    <["netsuite" := BqClient.netsuite_schema p d]> (
    <["coupa" := BqClient.coupa_schema p d]> (
    <["workday" := BqClient.workday_schema p d]> (
    <["jira" := BqClient.jira_schema p d]> (
    <["inhouse" := BqClient.inhouse_schema p d]> ∅))))) in
  base ∉ ["salesforce"; "netsuite"; "coupa"; "workday"; "jira"; "inhouse"] ->
  schemas !! base = None.
Proof.
  intros schemas Hn. subst schemas.
  rewrite !lookup_insert_ne, lookup_empty; [done|..];
    intros <-; apply Hn; in_list.
Qed.

(** The six schema texts differ in their first line, whatever the project
    and the dataset. *)
Lemma schemas_distinct (p d : string) :
  NoDup [BqClient.salesforce_schema p d; BqClient.netsuite_schema p d;
         BqClient.coupa_schema p d; BqClient.workday_schema p d;
         BqClient.jira_schema p d; BqClient.inhouse_schema p d].
Proof.
  apply (NoDup_fmap_1 (String.substring 0 30)).
  apply (bool_decide_unpack _). vm_compute. exact I.
Qed.

(** X17: the schema text is a function of the base identifier, of the
    dataset and of the project, an empty project counting as
    [YOUR_PROJECT]: each of the six known identifiers gets the schema of
    its own system, the six schemas being pairwise distinct texts, and
    every other identifier gets the salesforce schema.  Hence two
    environments with the same dataset and the same project after that
    default get the same text, and the text is never built from an empty
    project. *)
Theorem get_schema_description_fallback (W : World) (base : string) :
  let p := if String.eqb (GCP_PROJECT_ID W) EmptyString
           then "YOUR_PROJECT" else GCP_PROJECT_ID W in
  let d := BQ_DATASET W in
  BqClient.get_schema_description W base
  = (if String.eqb base "salesforce" then BqClient.salesforce_schema p d
     else if String.eqb base "netsuite" then BqClient.netsuite_schema p d
     else if String.eqb base "coupa" then BqClient.coupa_schema p d
     else if String.eqb base "workday" then BqClient.workday_schema p d
     else if String.eqb base "jira" then BqClient.jira_schema p d
     else if String.eqb base "inhouse" then BqClient.inhouse_schema p d
     else BqClient.salesforce_schema p d)
  /\ p <> EmptyString
  /\ NoDup (BqClient.get_schema_description W <$>
              ["salesforce"; "netsuite"; "coupa"; "workday"; "jira"; "inhouse"])
  /\ (base ∉ ["salesforce"; "netsuite"; "coupa"; "workday"; "jira"; "inhouse"] ->
      BqClient.get_schema_description W base
      = BqClient.get_schema_description W "salesforce")
  /\ (forall W' : World,
        BQ_DATASET W' = d ->
        (if String.eqb (GCP_PROJECT_ID W') EmptyString
         then "YOUR_PROJECT" else GCP_PROJECT_ID W') = p ->
        BqClient.get_schema_description W' base
        = BqClient.get_schema_description W base).
Proof.
  intros p d.
  assert (Hknown : forall k, BqClient.get_schema_description W k
            = (if String.eqb k "salesforce" then BqClient.salesforce_schema p d
               else if String.eqb k "netsuite" then BqClient.netsuite_schema p d
               else if String.eqb k "coupa" then BqClient.coupa_schema p d
               else if String.eqb k "workday" then BqClient.workday_schema p d
               else if String.eqb k "jira" then BqClient.jira_schema p d
               else if String.eqb k "inhouse" then BqClient.inhouse_schema p d
               else BqClient.salesforce_schema p d)).
  { intros k. unfold BqClient.get_schema_description. fold p d. cbn zeta.
    destruct (String.eqb_spec k "salesforce") as [->|H1]; [reflexivity|].
    destruct (String.eqb_spec k "netsuite") as [->|H2]; [reflexivity|].
    destruct (String.eqb_spec k "coupa") as [->|H3]; [reflexivity|].
    destruct (String.eqb_spec k "workday") as [->|H4]; [reflexivity|].
    destruct (String.eqb_spec k "jira") as [->|H5]; [reflexivity|].
    destruct (String.eqb_spec k "inhouse") as [->|H6]; [reflexivity|].
    rewrite (schema_lookup p d k); [reflexivity|].
    intros Hk. each_member Hk; congruence. }
  split; [apply Hknown|].
  split.
  { subst p. destruct (String.eqb_spec (GCP_PROJECT_ID W) EmptyString); done. }
  split.
  { cbn [fmap list_fmap]. rewrite !Hknown. cbn [String.eqb Ascii.eqb Bool.eqb].
    apply schemas_distinct. }
  split.
  { intros Hn. unfold BqClient.get_schema_description. cbn zeta.
    by rewrite (schema_lookup _ _ base Hn). }
  intros W' Hd Hp. unfold BqClient.get_schema_description.
  fold p d. by rewrite Hd, Hp.
Qed.

End SchemaText.

Lemma get_schema_description_fallback_witness :
  BqClient.get_schema_description Examples.bare_world "sap"
  = BqClient.get_schema_description Examples.bare_world "salesforce".
Proof.
  apply (proj1 (proj2 (proj2 (proj2
           (get_schema_description_fallback Examples.bare_world "sap"))))).
  apply (bool_decide_unpack _). vm_compute. exact I.
Defined.
